(** * Election lifecycle and vote store of the verifiable voting demo

    A shallow embedding of [src/database_handler.py] (class [Database]) and
    of the request handlers of [src/app.py] that drive it, over an
    in-memory model of the hosted relational store.

    Rows are the JSON objects the store exchanges with the program, so
    they are dictionaries from column names to values; a table is the list
    of its rows in storage order.  Python exceptions are explicit: every
    operation returns a result together with the store it leaves behind,
    because nothing is rolled back when a handler raises. *)

From Stdlib Require Import ZArith String List Lia DecimalString Sorted.
From stdpp Require Import base option list gmap strings fin_maps pretty.

Local Open Scope Z_scope.
Local Open Scope string_scope.

(** ** Values, rows and Python objects *)

(** JSON scalars as the program sees them. *)
Inductive value :=
  | VNone
  | VBool (b : bool)
  | VInt (n : Z)
  | VStr (s : string).

#[global] Instance value_eq_dec : EqDecision value.
Proof. solve_decision. Defined.

(** A row, and any other Python dict of scalars. *)
Abbreviation row := (gmap string value).

(** The answer of [execute()]: the rows, and the HTTP status of the
    exchange.  The object the client hands back exposes the rows only, not
    the status (see [getattr_status_code]). *)
Record APIResponse := { data : list row; status_code : Z }.

(** The Python objects that travel between the handlers. *)
Inductive pyobj :=
  | ONone
  | OStr (s : string)
  | ODict (d : row)
  | OList (l : list row)
  | OResponse (r : APIResponse).

(** Python exceptions raised on the modelled paths. *)
Inductive exn :=
  | ValueError (msg : string)
  | KeyError (key : string)
  | BadRequestKeyError (key : string)
  | AttributeError (attr : string)
  | IndexError
  | NameError (name : string)
  | UnboundLocalError (name : string).

Inductive result (A : Type) :=
  | Ok (a : A)
  | Raise (e : exn).
Arguments Ok {A} a.
Arguments Raise {A} e.

(** Truth value testing. *)
Definition truthy (v : value) : bool :=
  match v with
  | VNone => false
  | VBool b => b
  | VInt n => negb (Z.eqb n 0)
  | VStr s => negb (String.eqb s "")
  end.

Definition dict_truthy (d : row) : bool := negb (bool_decide (d = ∅)).

Definition list_truthy {A} (l : list A) : bool :=
  match l with [] => false | _ => true end.

Definition opt_dict_truthy (o : option row) : bool :=
  match o with None => false | Some d => dict_truthy d end.

Definition obj_truthy (o : pyobj) : bool :=
  match o with
  | ONone => false
  | OStr s => negb (String.eqb s "")
  | ODict d => dict_truthy d
  | OList l => list_truthy l
  | OResponse _ => true
  end.

(** [v == True]: booleans are integers in Python, so [1 == True]. *)
Definition eq_True (v : value) : bool :=
  match v with
  | VBool b => b
  | VInt n => Z.eqb n 1
  | _ => false
  end.

(** [d[k]] on a dict. *)
Definition getitem (d : row) (k : string) : result value :=
  match d !! k with
  | Some v => Ok v
  | None => Raise (KeyError k)
  end.

(** [o.data]: response objects carry the attribute, dicts do not. *)
Definition getattr_data (o : pyobj) : result (list row) :=
  match o with
  | OResponse r => Ok (data r)
  | _ => Raise (AttributeError "data")
  end.

(** [o.decrypted_tally]: none of the objects above has the attribute; a
    row keeps its tally under the key, not as an attribute. *)
Definition getattr_decrypted_tally (o : pyobj) : result pyobj :=
  Raise (AttributeError "decrypted_tally").

(** [o.status_code]: the answer of [execute()] carries its rows and a
    count, and a dict has no attributes, so none of the objects above has
    this one. *)
Definition getattr_status_code (o : pyobj) : result Z :=
  Raise (AttributeError "status_code").

(** ** The store *)

Inductive table := Elections | Candidates | Votes | Admins.

Record Store := {
  elections : list row;
  candidates : list row;
  votes : list row;
  admins : list row;
  clock : Z
}.

Definition empty_store : Store :=
  {| elections := []; candidates := []; votes := []; admins := []; clock := 0 |}.

Definition rows_of (t : table) (s : Store) : list row :=
  match t with
  | Elections => elections s
  | Candidates => candidates s
  | Votes => votes s
  | Admins => admins s
  end.

Definition set_rows (t : table) (l : list row) (s : Store) : Store :=
  match t with
  | Elections =>
      {| elections := l; candidates := candidates s; votes := votes s;
         admins := admins s; clock := clock s |}
  | Candidates =>
      {| elections := elections s; candidates := l; votes := votes s;
         admins := admins s; clock := clock s |}
  | Votes =>
      {| elections := elections s; candidates := candidates s; votes := l;
         admins := admins s; clock := clock s |}
  | Admins =>
      {| elections := elections s; candidates := candidates s; votes := votes s;
         admins := l; clock := clock s |}
  end.

Definition tick (s : Store) : Store :=
  {| elections := elections s; candidates := candidates s; votes := votes s;
     admins := admins s; clock := clock s + 1 |}.

(** A computation on the store that may raise.  The store comes back in
    both cases. *)
Definition M (A : Type) : Type := Store -> result A * Store.

Definition ret {A} (a : A) : M A := fun s => (Ok a, s).
Definition raise {A} (e : exn) : M A := fun s => (Raise e, s).
Definition bind {A B} (c : M A) (k : A -> M B) : M B :=
  fun s =>
    match c s with
    | (Ok a, s') => k a s'
    | (Raise e, s') => (Raise e, s')
    end.
Definition lift {A} (r : result A) : M A := fun s => (r, s).

Notation "'let!' x ':=' c 'in' k" := (bind c (fun x => k))
  (at level 10, x pattern, c at level 100, k at level 200).

Fixpoint mapM {A B} (f : A -> result B) (l : list A) : result (list B) :=
  match l with
  | [] => Ok []
  | a :: l' =>
      match f a with
      | Raise e => Raise e
      | Ok b =>
          match mapM f l' with
          | Raise e => Raise e
          | Ok bs => Ok (b :: bs)
          end
      end
  end.

(** ** The client of the hosted store

    The program reaches the store through [table(t).insert(rows)],
    [table(t).select(cols).eq(col, v).order(col, desc=True).limit(n)] and
    [table(t).update(patch).eq(col, v)], each ended by [execute()].  A
    filter keeps the rows that hold the given value under the given column
    name; names are compared as written, so a row answers only to the
    names of its own columns.  A filter on a name no row has keeps no
    row.  A server that refuses a name its table does not have makes the
    client raise instead; in both readings the caller gets no row and the
    store is left as it was, and nothing below depends on which of the two
    happens beyond that. *)

(** [.eq(col, v)] *)
Definition eq_ (col : string) (v : value) (l : list row) : list row :=
  filter (fun r => r !! col = Some v) l.

(** The number a row is ranked by under [.order(col, ...)].  The program
    orders by [id] and [created_at] only; a missing, null or non-numeric
    entry ranks as NULL. *)
Definition rank (col : string) (r : row) : option Z :=
  match r !! col with
  | Some (VInt n) => Some n
  | _ => None
  end.

(** [a] may follow [b] in descending order; NULL comes first. *)
Definition follows (a b : option Z) : bool :=
  match a, b with
  | _, None => true
  | None, Some _ => false
  | Some x, Some y => Z.leb x y
  end.

Fixpoint place (col : string) (r : row) (l : list row) : list row :=
  match l with
  | [] => [r]
  | r' :: l' =>
      if follows (rank col r') (rank col r) then r :: r' :: l'
      else r' :: place col r l'
  end.

(** [.order(col, desc=True)] *)
Definition order_desc (col : string) (l : list row) : list row :=
  foldr (place col) [] l.

(** [.limit(n)] *)
Definition limit (n : nat) (l : list row) : list row := take n l.

(** [.select(cols)]: ["*"] keeps the row, a column name projects on it. *)
Inductive columns := Star | Col (c : string).

Definition project (cs : columns) (r : row) : row :=
  match cs with
  | Star => r
  | Col c => match r !! c with Some v => {[ c := v ]} | None => ∅ end
  end.

Definition select (t : table) (cs : columns) (q : list row -> list row)
  : M APIResponse :=
  fun s => (Ok {| data := project cs <$> q (rows_of t s); status_code := 200 |}, s).

(** Columns the server fills in when the row does not give them:
    [elections.created_at] is the server's timestamp. *)
Definition with_default (k : string) (v : value) (r : row) : row :=
  match r !! k with Some _ => r | None => <[k := v]> r end.

Definition server_defaults (t : table) (now : Z) (r : row) : row :=
  match t with
  | Elections => with_default "created_at" (VInt now) r
  | _ => r
  end.

Definition insert (t : table) (rs : list row) : M APIResponse :=
  fun s =>
    let rs' := server_defaults t (clock s) <$> rs in
    (Ok {| data := rs'; status_code := 201 |},
     tick (set_rows t (rows_of t s ++ rs') s)).

Definition hit (col : string) (v : value) (r : row) : bool :=
  bool_decide (r !! col = Some v).

Definition patch_row (patch : row) (col : string) (v : value) (r : row) : row :=
  if hit col v r then patch ∪ r else r.

Definition update (t : table) (patch : row) (col : string) (v : value)
  : M APIResponse :=
  fun s =>
    (Ok {| data := (fun r => patch ∪ r) <$> eq_ col v (rows_of t s);
           status_code := 200 |},
     set_rows t (patch_row patch col v <$> rows_of t s) s).

(** ** Dates and times *)

(** A [datetime.datetime]: its local reading and its [tzinfo], the latter
    given by the UTC offset it prints. *)
Record datetime := { dt_local : string; tzinfo : option string }.

Definition dt_isoformat (d : datetime) : string :=
  match tzinfo d with
  | Some off => dt_local d +:+ off
  | None => dt_local d
  end.

(** A [datetime.time] as [strptime(..., '%Y-%m-%dT%H:%M').time()] yields. *)
Record time := { hour : Z; minute : Z }.

Definition two_digits (n : Z) : string :=
  if Z.ltb n 10 then "0" +:+ pretty n else pretty n.

Definition time_isoformat (t : time) : string :=
  two_digits (hour t) +:+ ":" +:+ two_digits (minute t) +:+ ":00".

(** ** [class Database] *)

Definition opt_str (o : option string) : value :=
  match o with Some s => VStr s | None => VNone end.

Definition store_vote_data (cnic : string) (ballot_id election_id : Z)
    (encryption hash_value random_factor : string) (timestamp : datetime)
  : M APIResponse :=
  match tzinfo timestamp with
  | None => raise (ValueError "vote_time must include timezone information.")
  | Some _ =>
      let data : row :=
        {[ "cnic" := VStr cnic;
           "ballot_id" := VInt ballot_id;
           "election_id" := VInt election_id;
           "encrypted_vote" := VStr encryption;
           "vote_hash" := VStr hash_value;
           "randomness" := VStr random_factor;
           "time" := VStr (dt_isoformat timestamp) ]} in
      let! response := insert Votes [data] in
      ret response
  end.

Definition retrieve_vote_data (cnic : string) : M (option row) :=
  let! response := select Votes Star (eq_ "CNIC" (VStr cnic)) in
  ret (if list_truthy (data response) then head (data response) else None).

Definition store_election_data (election_id num_candidates : Z)
    (start_time end_time : time) (status results_visibility : bool)
    (encrypted_sum encrypted_randomness decrypted_tally : option string)
  : M APIResponse :=
  let data : row :=
    {[ "id" := VInt election_id;
       "num_candidates" := VInt num_candidates;
       "start_time" := VStr (time_isoformat start_time);
       "end_time" := VStr (time_isoformat end_time);
       "ongoing" := VBool status;
       "results_visibility" := VBool results_visibility;
       "encrypted_sum" := opt_str encrypted_sum;
       "combined_randomness" := opt_str encrypted_randomness;
       "decrypted_tally" := opt_str decrypted_tally ]} in
  let! response := insert Elections [data] in
  ret response.

(** One entry of the list comprehension of [store_candidate_data]. *)
Definition candidate_row (election_id : Z) (candidate : row) : result row :=
  match getitem candidate "name" with
  | Raise e => Raise e
  | Ok name =>
      match getitem candidate "id" with
      | Raise e => Raise e
      | Ok cand_id =>
          match getitem candidate "symbol" with
          | Raise e => Raise e
          | Ok symbol =>
              Ok ({[ "election_id" := VInt election_id;
                     "name" := name;
                     "cand_id" := cand_id;
                     "symbol" := symbol ]} : row)
          end
      end
  end.

Definition store_candidate_data (election_id : Z) (candidates : list row)
  : M APIResponse :=
  let! data := lift (mapM (candidate_row election_id) candidates) in
  let! response := insert Candidates data in
  ret response.

Definition get_votes_by_election (election_id : value) : M (list row) :=
  let! response := select Votes Star (eq_ "election_id" election_id) in
  ret (if list_truthy (data response) then data response else []).

Definition retrieve_election_data (election_id : Z) : M (option row) :=
  let! response :=
    select Elections Star (eq_ "election_id" (VInt election_id)) in
  ret (if list_truthy (data response) then head (data response) else None).

Definition status_dict (status message : string) : row :=
  {[ "status" := VStr status; "message" := VStr message ]}.

Definition update_result_visibility (election_id : Z) (status : bool) : M row :=
  let! election_data := retrieve_election_data election_id in
  match election_data with
  | None =>
      ret (status_dict "error"
             ("Election ID " +:+ pretty election_id +:+ " not found"))
  | Some election_data =>
      if negb (dict_truthy election_data) then
        ret (status_dict "error"
               ("Election ID " +:+ pretty election_id +:+ " not found"))
      else
        let! ongoing := lift (getitem election_data "ongoing") in
        if negb (truthy ongoing) then
          let! response :=
            update Elections {[ "results_visibility" := VBool true ]}
                   "id" (VInt election_id) in
          let! status_code := lift (getattr_status_code (OResponse response)) in
          if Z.eqb status_code 200 then
            ret (status_dict "success"
                   ("Results visibility updated for election ID "
                      +:+ pretty election_id))
          else
            ret (status_dict "error"
                   ("Failed to update results visibility for election ID "
                      +:+ pretty election_id))
        else
          ret (status_dict "skipped"
                 ("Election ID " +:+ pretty election_id
                    +:+ " is already ongoing; no update made"))
  end.

Definition not_found_marker : row := status_dict "error" "No elections found".

Definition retrieve_last_election : M pyobj :=
  let! response :=
    select Elections Star (fun l => limit 1 (order_desc "created_at" l)) in
  match data response with
  | [] => ret (ODict not_found_marker)
  | r :: _ => ret (ODict r)
  end.

Definition end_election : M pyobj :=
  let! response :=
    select Elections Star (fun l => limit 1 (order_desc "id" l)) in
  match data response with
  | [] => ret (ODict not_found_marker)
  | last_election :: _ =>
      let! election_id := lift (getitem last_election "id") in
      let! update_response :=
        update Elections {[ "ongoing" := VBool false ]} "id" election_id in
      ret (OResponse update_response)
  end.

Definition get_visible_election : M (option row) :=
  let! response :=
    select Elections Star
           (fun l => limit 1 (eq_ "results_visibility" (VBool true) l)) in
  match data response with
  | [] => ret None
  | r :: _ => ret (Some r)
  end.

(** ** The request handlers of [app.py] *)

(** What a handler returns to Flask. *)
Inductive http :=
  | render_template (template : string) (context : list (string * pyobj))
  | body_status (body : string) (code : Z).

(** [request.form], the submitted fields. *)
Abbreviation form := (gmap string string).

(** [request.form[k]] *)
Definition form_getitem (f : form) (k : string) : result string :=
  match f !! k with
  | Some v => Ok v
  | None => Raise (BadRequestKeyError k)
  end.

(** Truth value of what [request.form.get(k)] gives. *)
Definition field_truthy (o : option string) : bool :=
  match o with
  | Some v => negb (String.eqb v "")
  | None => false
  end.

(** [l[0]] and [l[-1] if l else None] on a list of rows. *)
Definition first_item (l : list row) : result row :=
  match l with
  | r :: _ => Ok r
  | [] => Raise IndexError
  end.

Definition last_or_None (l : list row) : pyobj :=
  match last l with
  | Some r => ODict r
  | None => ONone
  end.

Definition opt_obj (o : option row) : pyobj :=
  match o with Some d => ODict d | None => ONone end.

(** The loop of [election_setup]: the first row decides as soon as its
    [ongoing] equals [True]. *)
Fixpoint any_ongoing (l : list row) : result bool :=
  match l with
  | [] => Ok false
  | i :: l' =>
      match getitem i "ongoing" with
      | Raise e => Raise e
      | Ok v => if eq_True v then Ok true else any_ongoing l'
      end
  end.

Definition election_setup : M http :=
  let! response := select Elections (Col "ongoing") (fun l => l) in
  let! found := lift (any_ongoing (data response)) in
  if (found : bool) then ret (body_status "An election is already ongoing!" 403)
  else ret (render_template "election_setup.html" []).

Definition end_election_handler : M http :=
  let! response := end_election in
  ret (render_template "admin_dashboard.html" []).

Definition search_encryptions : M http :=
  let! visible_election := get_visible_election in
  if opt_dict_truthy visible_election then
    match visible_election with
    | Some visible_election =>
        let! election_id := lift (getitem visible_election "id") in
        let! votes := get_votes_by_election election_id in
        ret (render_template "search_encryptions.html" [("votes", OList votes)])
    | None => ret (body_status "No visible results" 403)
    end
  else ret (body_status "No visible results" 403).

Definition results : M http :=
  let! last_election := retrieve_last_election in
  if obj_truthy last_election then
    let! results := lift (getattr_decrypted_tally last_election) in
    ret (render_template "results.html" [("results", results)])
  else ret (body_status "No results to display" 403).

Definition voter_login (method : string) (f : form) : M http :=
  if String.eqb method "POST" then
    let! cnic := lift (form_getitem f "cnic") in
    let! response := retrieve_last_election in
    let! rows := lift (getattr_data response) in
    let! last_election := lift (first_item rows) in
    let! ongoing := lift (getitem last_election "ongoing") in
    if eq_True ongoing then
      let! vote_data := retrieve_vote_data cnic in
      if opt_dict_truthy vote_data then
        ret (render_template "receipt.html" [("vote_data", opt_obj vote_data)])
      else
        ret (render_template "cast_vote.html" [("cnic", OStr cnic)])
    else
      let! visible := lift (getitem last_election "results_visibility") in
      if eq_True visible then ret (render_template "search_encryptions.html" [])
      else raise (NameError "flash")
  else ret (render_template "login.html" []).

(** [start_election] reads numbers and times off the form with Python's
    [int] and [datetime.strptime]; both are library functions, taken here
    as they come: [None] stands for the [ValueError] they raise. *)
Section StartElection.

Variable int : string -> option Z.
Variable strptime_time : string -> option time.

Definition parse_int (v : string) : result Z :=
  match int v with
  | Some n => Ok n
  | None => Raise (ValueError "invalid literal for int()")
  end.

Definition parse_time (v : string) : result time :=
  match strptime_time v with
  | Some t => Ok t
  | None => Raise (ValueError "time data does not match format")
  end.

(** One turn of the loop over the candidate fields: the entry that is
    appended, if any. *)
Definition candidate_entry (f : form) (i : Z) : option row :=
  let candidate_name := f !! ("candidate_name_" +:+ pretty i) in
  let candidate_id := f !! ("candidate_id_" +:+ pretty i) in
  let candidate_symbol := f !! ("candidate_symbol_" +:+ pretty i) in
  if field_truthy candidate_name && field_truthy candidate_symbol then
    Some ({[ "name" := opt_str candidate_name;
             "id" := opt_str candidate_id;
             "symbol" := opt_str candidate_symbol ]} : row)
  else None.

Definition start_election (f : form) : M http :=
  let! election_id_str := lift (form_getitem f "election_id") in
  let! election_id := lift (parse_int election_id_str) in
  let! num_candidates_str := lift (form_getitem f "num_candidates") in
  let! num_candidates := lift (parse_int num_candidates_str) in
  let! start_time_str := lift (form_getitem f "start_time") in
  let! end_time_str := lift (form_getitem f "end_time") in
  let status := true in
  let results_visibility := false in
  let encrypted_sum := None in
  let encrypted_randomness := None in
  let decrypted_tally := None in
  let! start_time := lift (parse_time start_time_str) in
  let! end_time := lift (parse_time end_time_str) in
  let candidates := omap (candidate_entry f) (seqZ 1 num_candidates) in
  let! response1 :=
    store_election_data election_id num_candidates start_time end_time
      status results_visibility encrypted_sum encrypted_randomness
      decrypted_tally in
  let! response2 := store_candidate_data election_id candidates in
  if list_truthy (data response1) && list_truthy (data response2) then
    let! response := select Elections Star (fun l => l) in
    let elections := data response in
    ret (render_template "admin_dashboard.html"
           [("elections", OList elections);
            ("last_election", last_or_None elections)])
  else raise (UnboundLocalError "response").

End StartElection.

(** Readers for the examples below: plain decimal numerals, and the time
    of day of a stamp written [YYYY-MM-DDTHH:MM]. *)
Definition int_of_decimal (v : string) : option Z :=
  Z.of_int <$> NilZero.int_of_string v.

Definition time_of_stamp (v : string) : option time :=
  match String.index 0 "T" v with
  | None => None
  | Some i =>
      let hm := String.substring (S i) (String.length v - S i) v in
      match String.index 0 ":" hm with
      | None => None
      | Some j =>
          match int_of_decimal (String.substring 0 j hm),
                int_of_decimal (String.substring (S j) (String.length hm - S j) hm) with
          | Some h, Some m =>
              if Z.leb 0 h && Z.ltb h 24 && Z.leb 0 m && Z.ltb m 60
              then Some {| hour := h; minute := m |} else None
          | _, _ => None
          end
      end
  end.

(** ** Operations and runs *)

(** The methods of [Database] that write to the store.  Every handler
    changes the store through these calls only. *)
Inductive op :=
  | StoreVoteData (cnic : string) (ballot_id election_id : Z)
      (encryption hash_value random_factor : string) (timestamp : datetime)
  | StoreElectionData (election_id num_candidates : Z)
      (start_time end_time : time) (status results_visibility : bool)
      (encrypted_sum encrypted_randomness decrypted_tally : option string)
  | StoreCandidateData (election_id : Z) (candidates : list row)
  | UpdateResultVisibility (election_id : Z) (status : bool)
  | EndElection.

(** The store an operation leaves, whether it returns or raises. *)
Definition exec (o : op) (s : Store) : Store :=
  match o with
  | StoreVoteData cnic ballot_id election_id encryption hash_value
      random_factor timestamp =>
      snd (store_vote_data cnic ballot_id election_id encryption hash_value
             random_factor timestamp s)
  | StoreElectionData election_id num_candidates start_time end_time status
      results_visibility encrypted_sum encrypted_randomness decrypted_tally =>
      snd (store_election_data election_id num_candidates start_time end_time
             status results_visibility encrypted_sum encrypted_randomness
             decrypted_tally s)
  | StoreCandidateData election_id candidates =>
      snd (store_candidate_data election_id candidates s)
  | UpdateResultVisibility election_id status =>
      snd (update_result_visibility election_id status s)
  | EndElection => snd (end_election s)
  end.

Definition exec_all (os : list op) (s : Store) : Store :=
  foldl (fun s o => exec o s) s os.

(** What an operation may do to an election row that is already there. *)
Inductive touched (r : row) : row -> Prop :=
  | touched_not : touched r r
  | touched_closed : touched r (<["ongoing" := VBool false]> r)
  | touched_published : touched r (<["results_visibility" := VBool true]> r).

(** The direction the two flags of a row can move in. *)
Definition one_way (r r' : row) : Prop :=
  r' !! "id" = r !! "id" /\
  (r !! "ongoing" = Some (VBool false) -> r' !! "ongoing" = Some (VBool false)) /\
  (r !! "results_visibility" = Some (VBool true) ->
   r' !! "results_visibility" = Some (VBool true)).

(** The requests that reach the store: starting an election through the
    handler, closing the latest one, publishing results, casting a vote. *)
Inductive request :=
  | StartElection (f : form)
  | CloseElection
  | SetResultsVisibility (election_id : Z) (status : bool)
  | CastVote (cnic : string) (ballot_id election_id : Z)
      (encryption hash_value random_factor : string) (timestamp : datetime).

Section Runs.

Variable int : string -> option Z.
Variable strptime_time : string -> option time.

Definition serve (q : request) (s : Store) : Store :=
  match q with
  | StartElection f => snd (start_election int strptime_time f s)
  | CloseElection => snd (end_election_handler s)
  | SetResultsVisibility election_id status =>
      snd (update_result_visibility election_id status s)
  | CastVote cnic ballot_id election_id encryption hash_value random_factor
      timestamp =>
      snd (store_vote_data cnic ballot_id election_id encryption hash_value
             random_factor timestamp s)
  end.

Inductive reachable (s0 : Store) : Store -> Prop :=
  | reachable_start : reachable s0 s0
  | reachable_serve s q : reachable s0 s -> reachable s0 (serve q s).

End Runs.

(** ** Conditions on the election table *)

(** Results are visible only for closed elections. *)
Definition closed_when_visible (s : Store) : Prop :=
  Forall (fun r => r !! "results_visibility" = Some (VBool true) ->
                   r !! "ongoing" = Some (VBool false))
         (elections s).

(** Election rows carry their number under [id], as [store_election_data]
    writes them, and have no [election_id] column. *)
Definition keyed_by_id (s : Store) : Prop :=
  Forall (fun r => r !! "election_id" = None) (elections s).

(** An election counts as ongoing when its [ongoing] equals [True]. *)
Definition is_ongoing (r : row) : bool :=
  match r !! "ongoing" with
  | Some v => eq_True v
  | None => false
  end.

Definition ongoing_count (s : Store) : nat :=
  length (filter (fun r => is_ongoing r = true) (elections s)).

(** Every election has an integer under [col]. *)
Definition numbered (col : string) (l : list row) : Prop :=
  Forall (fun r => is_Some (rank col r)) l.

(** The ids of the elections, in storage order. *)
Definition ids (l : list row) : list (option value) :=
  (fun r => r !! "id") <$> l.

(** ** Sample data *)

Definition aware : datetime :=
  {| dt_local := "2024-03-01T10:00:00"; tzinfo := Some "+00:00" |}.

Definition naive : datetime :=
  {| dt_local := "2024-03-01T10:00:00"; tzinfo := None |}.

(** The form of the scenario of the specification, with one more entry
    whose symbol is blank. *)
Definition form_AB (election_id : string) : form :=
  {[ "election_id" := election_id;
     "num_candidates" := "3";
     "start_time" := "2024-03-01T09:00";
     "end_time" := "2024-03-01T17:00";
     "candidate_name_1" := "A"; "candidate_id_1" := "1";
     "candidate_symbol_1" := "x";
     "candidate_name_2" := "B"; "candidate_id_2" := "2";
     "candidate_symbol_2" := "y";
     "candidate_name_3" := "C"; "candidate_id_3" := "3";
     "candidate_symbol_3" := "" ]}.

(** One election, started and still ongoing. *)
Definition store_ongoing : Store :=
  snd (start_election int_of_decimal time_of_stamp (form_AB "1") empty_store).

(** The same election after [end_election]. *)
Definition store_closed : Store := snd (end_election store_ongoing).

(** Election 1 closed and election 2 started after it. *)
Definition store_two : Store :=
  snd (start_election int_of_decimal time_of_stamp (form_AB "2") store_closed).

(** A closed election whose results are visible, and one vote for it. *)
Definition store_published : Store :=
  {| elections :=
       [ {[ "id" := VInt 1; "ongoing" := VBool false;
            "results_visibility" := VBool true; "created_at" := VInt 0 ]} ];
     candidates := [];
     votes := [ {[ "cnic" := VStr "12345"; "election_id" := VInt 1;
                   "encrypted_vote" := VStr "e" ]} ];
     admins := [];
     clock := 2 |}.
(** Election 1 ongoing, with one vote of voter 12345, then a second one. *)
Definition store_voted : Store :=
  snd (store_vote_data "12345" 7 1 "enc" "hash" "rnd" aware store_ongoing).

Definition store_voted_twice : Store :=
  snd (store_vote_data "12345" 8 1 "enc" "hash" "rnd" aware store_voted).

(** Election 2 started while election 1 is still ongoing. *)
Definition store_second_ongoing : Store :=
  snd (start_election int_of_decimal time_of_stamp (form_AB "2") store_ongoing).

(** From [store_published]: election 2 is started and receives a vote. *)
Definition store_next_election : Store :=
  serve int_of_decimal time_of_stamp
    (CastVote "777" 9 2 "enc" "hash" "rnd" aware)
    (serve int_of_decimal time_of_stamp (StartElection (form_AB "2"))
       store_published).

(** ** The candidate rows the specification expects

    Written from the specification's words, to be compared with what
    [start_election] stores: an entry counts when its name and its symbol
    are both present and non-empty, and each such entry gives one row. *)

Definition filled (o : option string) : Prop :=
  match o with
  | Some v => v <> ""
  | None => False
  end.

#[global] Instance filled_dec o : Decision (filled o).
Proof. destruct o; simpl; apply _. Defined.

Definition complete (f : form) (i : Z) : Prop :=
  filled (f !! ("candidate_name_" +:+ pretty i)) /\
  filled (f !! ("candidate_symbol_" +:+ pretty i)).

#[global] Instance complete_dec f i : Decision (complete f i).
Proof. unfold complete. apply _. Defined.

Definition expected_candidate (f : form) (election_id : Z) (i : Z) : row :=
  {[ "election_id" := VInt election_id;
     "name" := opt_str (f !! ("candidate_name_" +:+ pretty i));
     "cand_id" := opt_str (f !! ("candidate_id_" +:+ pretty i));
     "symbol" := opt_str (f !! ("candidate_symbol_" +:+ pretty i)) ]}.

Definition expected_candidates (f : form) (election_id num_candidates : Z)
  : list row :=
  expected_candidate f election_id <$> filter (complete f) (seqZ 1 num_candidates).

(** ** Administrators and the list of past elections

    The remaining readers of [database_handler.py] and [app.py].  What the
    handlers print to the console is left out. *)

Definition check_admin_username (username : string) : M bool :=
  let! response :=
    select Admins (Col "username") (eq_ "username" (VStr username)) in
  ret (list_truthy (data response)).

Definition check_admin_password (username password : string) : M bool :=
  let! response :=
    select Admins (Col "password") (eq_ "username" (VStr username)) in
  if negb (list_truthy (data response)) then ret false
  else
    let! first := lift (first_item (data response)) in
    let! stored := lift (getitem first "password") in
    ret (bool_decide (stored = VStr password)).

(** [admin_login]: the route takes GET and POST only.  The [and] of the
    two checks runs the second only when the first holds. *)
Definition admin_login (method : string) (f : form) : M http :=
  if String.eqb method "POST" then
    let! username := lift (form_getitem f "username") in
    let! password := lift (form_getitem f "password") in
    let! known := check_admin_username username in
    let! valid :=
      (if (known : bool) then check_admin_password username password
       else ret false) in
    if (valid : bool) then
      let! response := select Elections Star (fun l => l) in
      let elections := data response in
      ret (render_template "admin_dashboard.html"
             [("elections", OList elections);
              ("last_election", last_or_None elections)])
    else ret (body_status "Invalid credentials" 401)
  else ret (render_template "login.html" []).

(** One turn of the loop of [view_prev_elections]: the names of the
    candidates stored under the election's id. *)
Definition candidate_names (election : row) : M (list value) :=
  let! election_id := lift (getitem election "id") in
  let! candidates_response :=
    select Candidates (Col "name") (eq_ "election_id" election_id) in
  lift (mapM (fun candidate => getitem candidate "name")
          (data candidates_response)).

(** The loop sets [election['candidates']] on each election in turn; an
    election dict with that list is written as the pair of the row and the
    list. *)
Fixpoint with_candidates (elections : list row) : M (list (row * list value)) :=
  match elections with
  | [] => ret []
  | election :: rest =>
      let! names := candidate_names election in
      let! listed := with_candidates rest in
      ret ((election, names) :: listed)
  end.

(** [view_prev_elections]: the template and the elections handed to it. *)
Definition view_prev_elections : M (string * list (row * list value)) :=
  let! response := select Elections Star (order_desc "created_at") in
  let! elections := with_candidates (data response) in
  ret ("prev_elections.html", elections).

(** Descending order under a column: no row ranks above one before it. *)
Definition newest_first (col : string) (l : list row) : Prop :=
  StronglySorted (fun a b => follows (rank col b) (rank col a) = true) l.

(** The candidate dicts [store_candidate_data] can read. *)
Definition readable (candidate : row) : Prop :=
  is_Some (candidate !! "name") /\ is_Some (candidate !! "id") /\
  is_Some (candidate !! "symbol").

#[global] Instance readable_dec c : Decision (readable c).
Proof. unfold readable. apply _. Defined.

(** No election has its results visible. *)
Definition none_visible (s : Store) : Prop :=
  Forall (fun r => r !! "results_visibility" <> Some (VBool true)) (elections s).

(** Ids grow with creation time: two elections compare by [id] as they
    compare by [created_at]. *)
Definition ids_follow_creation (l : list row) : Prop :=
  Forall (fun a =>
            Forall (fun b =>
                      follows (rank "id" a) (rank "id" b)
                      = follows (rank "created_at" a) (rank "created_at" b)) l)
         l.

(** Every election was stamped before [now]. *)
Definition stamped_before (now : Z) (l : list row) : Prop :=
  Forall (fun r => match rank "created_at" r with
                   | Some t => (t < now)%Z
                   | None => False
                   end) l.

#[global] Instance stamped_before_dec now l : Decision (stamped_before now l).
Proof.
  unfold stamped_before. apply Forall_dec.
  intros r. destruct (rank "created_at" r); apply _.
Defined.

(** An ongoing election has the greatest id. *)
Definition only_latest_ongoing (l : list row) : Prop :=
  Forall (fun r => is_ongoing r = true ->
                   Forall (fun r' => follows (rank "id" r') (rank "id" r) = true) l)
         l.

(** ** More sample data *)

(** Two administrators; the name root is stored twice. *)
Definition store_admins : Store :=
  {| elections := elections store_two;
     candidates := candidates store_two;
     votes := [];
     admins := [ {[ "username" := VStr "root"; "password" := VStr "first" ]};
                 {[ "username" := VStr "ada"; "password" := VStr "lovelace" ]};
                 {[ "username" := VStr "root"; "password" := VStr "second" ]} ];
     clock := clock store_two |}.

(** From the empty store: election 1 is started, closed, and asked to be
    published. *)
Definition store_asked_to_publish : Store :=
  serve int_of_decimal time_of_stamp (SetResultsVisibility 1 true)
    (serve int_of_decimal time_of_stamp CloseElection
       (serve int_of_decimal time_of_stamp (StartElection (form_AB "1"))
          empty_store)).

Definition login_form (username password : string) : form :=
  {[ "username" := username; "password" := password ]}.

(** A form whose single candidate entry has no symbol. *)
Definition form_blank (election_id : string) : form :=
  {[ "election_id" := election_id;
     "num_candidates" := "1";
     "start_time" := "2024-03-01T09:00";
     "end_time" := "2024-03-01T17:00";
     "candidate_name_1" := "A"; "candidate_id_1" := "1" ]}.

(** * Properties *)

Example time_of_stamp_demo :
  time_isoformat <$> time_of_stamp "2024-03-01T09:05" = Some "09:05:00".
Proof. reflexivity. Qed.

Example int_of_decimal_demo :
  (int_of_decimal "42", int_of_decimal "", int_of_decimal "4x")
  = (Some 42, None, None).
Proof. reflexivity. Qed.

(** ** Filters *)

Lemma eq_no_column col v l :
  (forall r, r ∈ l -> r !! col = None) -> eq_ col v l = [].
Proof.
  induction l as [|r l IH]; intros Hl; [reflexivity|].
  unfold eq_. rewrite filter_cons_False.
  - apply IH. intros r' Hr'. apply Hl. by right.
  - rewrite (Hl r); [discriminate | by left].
Qed.

Lemma elem_of_eq_ col v l r : r ∈ eq_ col v l <-> r !! col = Some v /\ r ∈ l.
Proof. unfold eq_. by rewrite list_elem_of_filter. Qed.

(** ** [store_vote_data] *)

(** C3: without [tzinfo] the call raises [ValueError] and the store is
    left as it was; with it, the votes table afterwards is the one before
    followed by one row holding the arguments, and the elections, the
    candidates and the admins are as they were. *)
Theorem store_vote_data_requires_timezone
    cnic ballot_id election_id encryption hash_value random_factor timestamp s :
  match tzinfo timestamp with
  | None =>
      store_vote_data cnic ballot_id election_id encryption hash_value
        random_factor timestamp s
      = (Raise (ValueError "vote_time must include timezone information."), s)
  | Some off =>
      exists r s',
        store_vote_data cnic ballot_id election_id encryption hash_value
          random_factor timestamp s
        = (Ok {| data := [r]; status_code := 201 |}, s')
        /\ s' = tick (set_rows Votes (votes s ++ [r]) s)
        /\ votes s' = (votes s ++ [r])%list
        /\ elections s' = elections s
        /\ candidates s' = candidates s
        /\ admins s' = admins s
        /\ r !! "cnic" = Some (VStr cnic)
        /\ r !! "ballot_id" = Some (VInt ballot_id)
        /\ r !! "election_id" = Some (VInt election_id)
        /\ r !! "encrypted_vote" = Some (VStr encryption)
        /\ r !! "vote_hash" = Some (VStr hash_value)
        /\ r !! "randomness" = Some (VStr random_factor)
        /\ r !! "time" = Some (VStr (dt_local timestamp +:+ off))
  end.
Proof.
  destruct timestamp as [loc [off|]]; unfold store_vote_data; simpl.
  - eexists _, _. split; [reflexivity|].
    repeat split; reflexivity.
  - reflexivity.
Qed.

(** ** [retrieve_election_data] and [update_result_visibility] *)

Lemma retrieve_election_data_misses election_id s :
  keyed_by_id s -> retrieve_election_data election_id s = (Ok None, s).
Proof.
  intros Hs. unfold retrieve_election_data, bind, select, ret. simpl.
  rewrite eq_no_column; [done|]. by apply Forall_forall.
Qed.

Lemma update_result_visibility_misses election_id status s :
  keyed_by_id s ->
  update_result_visibility election_id status s
  = (Ok (status_dict "error"
           ("Election ID " +:+ pretty election_id +:+ " not found")), s).
Proof.
  intros Hs. unfold update_result_visibility, bind.
  by rewrite (retrieve_election_data_misses _ _ Hs).
Qed.

(** C4: on the closed election 1 of [store_closed] the call answers
    "error" and publishes nothing, and on the ongoing election 1 of
    [store_ongoing] it answers "error", not "skipped". *)
Theorem update_result_visibility_finds_no_election :
  update_result_visibility 1 true store_closed
  = (Ok (status_dict "error" "Election ID 1 not found"), store_closed)
  /\ (fun r => (r !! "id", r !! "ongoing", r !! "results_visibility"))
       <$> elections store_closed
     = [(Some (VInt 1), Some (VBool false), Some (VBool false))]
  /\ update_result_visibility 1 true store_ongoing
     = (Ok (status_dict "error" "Election ID 1 not found"), store_ongoing)
  /\ (fun r => (r !! "id", r !! "ongoing")) <$> elections store_ongoing
     = [(Some (VInt 1), Some (VBool true))].
Proof. repeat split; vm_compute; reflexivity. Qed.

(** ** [voter_login] *)

(** C2: with election 1 ongoing and a vote of voter 12345 stored for it,
    a POST to the voter login raises [AttributeError] instead of showing
    the receipt; and [store_vote_data] itself stores a second row for the
    same voter and election. *)
Theorem voter_login_raises_on_post :
  (fun r => (r !! "cnic", r !! "election_id")) <$> votes store_voted
    = [(Some (VStr "12345"), Some (VInt 1))]
  /\ voter_login "POST" {[ "cnic" := "12345" ]} store_voted
     = (Raise (AttributeError "data"), store_voted)
  /\ (fun r => (r !! "cnic", r !! "election_id")) <$> votes store_voted_twice
     = [(Some (VStr "12345"), Some (VInt 1));
        (Some (VStr "12345"), Some (VInt 1))].
Proof. repeat split; vm_compute; reflexivity. Qed.

(** ** [start_election] *)

(** C1: with election 1 ongoing, [election_setup] answers 403, yet a
    request to [start_election] for election 2 succeeds and leaves two
    elections with [ongoing] true, and two more candidate rows. *)
Theorem start_election_does_not_check_ongoing :
  fst (election_setup store_ongoing)
    = Ok (body_status "An election is already ongoing!" 403)
  /\ (exists context,
        fst (start_election int_of_decimal time_of_stamp (form_AB "2") store_ongoing)
        = Ok (render_template "admin_dashboard.html" context))
  /\ (fun r => (r !! "id", r !! "ongoing")) <$> elections store_second_ongoing
     = [(Some (VInt 1), Some (VBool true)); (Some (VInt 2), Some (VBool true))]
  /\ (fun r => (r !! "election_id", r !! "name"))
       <$> candidates store_second_ongoing
     = [(Some (VInt 1), Some (VStr "A")); (Some (VInt 1), Some (VStr "B"));
        (Some (VInt 2), Some (VStr "A")); (Some (VInt 2), Some (VStr "B"))].
Proof.
  repeat split; try (vm_compute; reflexivity).
  eexists. vm_compute. reflexivity.
Qed.

(** ** Ordering *)

Lemma follows_refl a : follows a a = true.
Proof. destruct a; simpl; [apply Z.leb_refl | reflexivity]. Qed.

Lemma follows_trans a b c :
  follows a b = true -> follows b c = true -> follows a c = true.
Proof.
  destruct a, b, c; simpl; try congruence.
  rewrite !Z.leb_le. lia.
Qed.

Lemma follows_total a b : follows a b = false -> follows b a = true.
Proof.
  destruct a, b; simpl; try congruence.
  rewrite Z.leb_gt, Z.leb_le. lia.
Qed.

Lemma elem_of_place col r l x : x ∈ place col r l <-> x = r \/ x ∈ l.
Proof.
  induction l as [|r' l IH]; simpl.
  - rewrite list_elem_of_singleton, elem_of_nil. tauto.
  - destruct (follows (rank col r') (rank col r)).
    + by rewrite elem_of_cons.
    + rewrite !elem_of_cons, IH. tauto.
Qed.

Lemma elem_of_order_desc col l x : x ∈ order_desc col l <-> x ∈ l.
Proof.
  induction l as [|r l IH]; [reflexivity|].
  change (order_desc col (r :: l)) with (place col r (order_desc col l)).
  by rewrite elem_of_place, IH, elem_of_cons.
Qed.

(** Where [place] puts the head. *)
Lemma place_head col r l :
  exists e t, place col r l = e :: t /\
    follows (rank col r) (rank col e) = true /\
    (forall x, head l = Some x -> follows (rank col x) (rank col e) = true).
Proof.
  destruct l as [|r' l]; simpl.
  - exists r, []. repeat split; auto using follows_refl. discriminate.
  - destruct (follows (rank col r') (rank col r)) eqn:E.
    + exists r, (r' :: l). repeat split; auto using follows_refl.
      intros x [= <-]. exact E.
    + exists r', (place col r l). repeat split.
      * by apply follows_total.
      * intros x [= <-]. apply follows_refl.
Qed.

(** The first row of a table in descending order is one of its rows and
    no row ranks above it. *)
Lemma order_desc_head col l :
  l <> [] ->
  exists e t, order_desc col l = e :: t /\ e ∈ l /\
    forall r, r ∈ l -> follows (rank col r) (rank col e) = true.
Proof.
  induction l as [|r l IH]; [congruence|]. intros _.
  destruct l as [|r' l].
  - exists r, []. repeat split; [by left|].
    intros x Hx. apply list_elem_of_singleton in Hx as ->. apply follows_refl.
  - destruct IH as (e & t & Hs & He & Hmax); [congruence|].
    destruct (place_head col r (e :: t)) as (e' & t' & Hp & Hr & Hh).
    assert (Hsort : order_desc col (r :: r' :: l) = e' :: t').
    { change (order_desc col (r :: r' :: l))
        with (place col r (order_desc col (r' :: l))).
      by rewrite Hs. }
    exists e', t'. split; [exact Hsort|]. split.
    + apply (elem_of_order_desc col). rewrite Hsort. by left.
    + intros x [->|Hx]%elem_of_cons; [exact Hr|].
      eapply follows_trans; [by apply Hmax|]. by apply Hh.
Qed.

Lemma order_desc_nil col : order_desc col [] = [].
Proof. reflexivity. Qed.

Lemma project_star (l : list row) : project Star <$> l = l.
Proof. induction l as [|r l IH]; [done|]. by rewrite fmap_cons, IH. Qed.

Lemma rank_Some col r n : rank col r = Some n <-> r !! col = Some (VInt n).
Proof.
  unfold rank. destruct (r !! col) as [[]|]; split; congruence.
Qed.

Lemma numbered_elem col l r :
  numbered col l -> r ∈ l -> exists n, r !! col = Some (VInt n).
Proof.
  intros Hnum Hr. unfold numbered in Hnum. rewrite Forall_forall in Hnum.
  destruct (Hnum r Hr) as [n Hn]. exists n. by apply rank_Some.
Qed.

(** The greatest row under an integer column. *)
Lemma order_desc_greatest col l :
  l <> [] -> numbered col l ->
  exists e t n, order_desc col l = e :: t /\ e ∈ l /\
    e !! col = Some (VInt n) /\
    forall r m, r ∈ l -> r !! col = Some (VInt m) -> (m <= n)%Z.
Proof.
  intros Hl Hnum.
  destruct (order_desc_head col l Hl) as (e & t & Hs & He & Hmax).
  destruct (numbered_elem col l e Hnum He) as [n Hn].
  exists e, t, n. repeat split; auto.
  intros r m Hr Hm. specialize (Hmax r Hr).
  unfold rank in Hmax. rewrite Hm, Hn in Hmax. simpl in Hmax.
  by apply Z.leb_le.
Qed.

(** Rows with distinct ids are told apart by their id. *)
Lemma ids_inj (l : list row) r e :
  NoDup (ids l) -> r ∈ l -> e ∈ l -> r !! "id" = e !! "id" -> r = e.
Proof.
  unfold ids. induction l as [|x l IH]; intros Hnd Hr He Heq.
  - by apply elem_of_nil in Hr.
  - rewrite fmap_cons in Hnd. apply NoDup_cons in Hnd as [Hx Hnd].
    apply elem_of_cons in Hr as [->|Hr]; apply elem_of_cons in He as [->|He];
      auto.
    + exfalso. apply Hx. rewrite Heq. apply list_elem_of_fmap. eauto.
    + exfalso. apply Hx. rewrite <- Heq. apply list_elem_of_fmap. eauto.
Qed.

Lemma eq_id_unique (l : list row) e v :
  NoDup (ids l) -> e ∈ l -> e !! "id" = Some v -> eq_ "id" v l = [e].
Proof.
  unfold ids, eq_. induction l as [|x l IH]; intros Hnd He Hv.
  - by apply elem_of_nil in He.
  - rewrite fmap_cons in Hnd. apply NoDup_cons in Hnd as [Hx Hnd].
    apply elem_of_cons in He as [<-|He].
    + rewrite filter_cons_True by done. f_equal.
      clear IH. induction l as [|y l IHl]; [reflexivity|].
      rewrite fmap_cons in Hx, Hnd.
      apply not_elem_of_cons in Hx as [Hy Hx].
      apply NoDup_cons in Hnd as [_ Hnd].
      rewrite filter_cons_False by congruence. by apply IHl.
    + rewrite filter_cons_False; [by apply IH|].
      intros Hxv. apply Hx. rewrite Hxv, <- Hv. apply list_elem_of_fmap. eauto.
Qed.

Lemma patch_unique (l : list row) e v (patch : row) :
  NoDup (ids l) -> e ∈ l -> e !! "id" = Some v ->
  patch_row patch "id" v <$> l
  = (fun r => if decide (r = e) then patch ∪ r else r) <$> l.
Proof.
  intros Hnd He Hv. apply list_fmap_ext. intros i r Hr.
  apply list_elem_of_lookup_2 in Hr.
  unfold patch_row, hit. case_bool_decide as Hhit; case_decide as Hre; auto.
  - exfalso. apply Hre. apply (ids_inj l); auto. congruence.
  - subst. congruence.
Qed.

(** ** [end_election] *)

(** C5: on an empty election table [end_election] returns the "No
    elections found" result and changes nothing; otherwise, the ids being
    distinct integers, it picks the election [e] with the greatest id,
    writes [ongoing = False] into that row and leaves every other row, and
    every other table, as it was. *)
Theorem end_election_closes_greatest_id s :
  numbered "id" (elections s) ->
  NoDup (ids (elections s)) ->
  match elections s with
  | [] => end_election s = (Ok (ODict not_found_marker), s)
  | _ :: _ =>
      exists e n,
        e ∈ elections s /\
        e !! "id" = Some (VInt n) /\
        (forall r m, r ∈ elections s -> r !! "id" = Some (VInt m) -> (m <= n)%Z) /\
        end_election s
        = (Ok (OResponse {| data := [<["ongoing" := VBool false]> e];
                            status_code := 200 |}),
           set_rows Elections
             ((fun r => if decide (r = e)
                        then <["ongoing" := VBool false]> r else r)
                <$> elections s) s)
  end.
Proof.
  intros Hnum Hnd.
  destruct (elections s) as [|r0 l0] eqn:El.
  - unfold end_election, bind, select. simpl. by rewrite El.
  - rewrite <- El in Hnum, Hnd. rewrite <- El.
    destruct (order_desc_greatest "id" (elections s))
      as (e & t & n & Hs & He & Hn & Hmax); [by rewrite El | done |].
    exists e, n. repeat split; auto.
    unfold end_election, bind, select. simpl.
    rewrite project_star, Hs. simpl.
    unfold lift, getitem. rewrite Hn.
    unfold update, ret. simpl.
    rewrite (eq_id_unique _ e) by done.
    rewrite (patch_unique _ e) by done.
    simpl. rewrite <- insert_union_singleton_l.
    assert (Hmap :
      (fun r : row => if decide (r = e)
                      then {["ongoing" := VBool false]} ∪ r else r)
        <$> elections s
      = (fun r : row => if decide (r = e)
                        then <["ongoing" := VBool false]> r else r)
        <$> elections s).
    { apply list_fmap_ext. intros i r _. case_decide; [|done].
      by rewrite <- insert_union_singleton_l. }
    by rewrite Hmap.
Qed.

(** Elections 1 and 2, the first closed and the second ongoing. *)
Lemma end_election_closes_greatest_id_witness :
  numbered "id" (elections store_two) /\
  NoDup (ids (elections store_two)) /\
  exists e n,
    e ∈ elections store_two /\
    e !! "id" = Some (VInt n) /\
    (forall r m, r ∈ elections store_two -> r !! "id" = Some (VInt m) -> (m <= n)%Z) /\
    end_election store_two
    = (Ok (OResponse {| data := [<["ongoing" := VBool false]> e];
                        status_code := 200 |}),
       set_rows Elections
         ((fun r => if decide (r = e)
                    then <["ongoing" := VBool false]> r else r)
            <$> elections store_two) store_two).
Proof.
  assert (H1 : numbered "id" (elections store_two)).
  { unfold numbered. apply (bool_decide_unpack _). vm_compute. reflexivity. }
  assert (H2 : NoDup (ids (elections store_two))).
  { apply (bool_decide_unpack _). vm_compute. reflexivity. }
  split; [exact H1|]. split; [exact H2|].
  exact (end_election_closes_greatest_id store_two H1 H2).
Defined.

(** ** [retrieve_last_election] *)

(** C9: with at least one election, each stamped by the server, the call
    returns a row whose [created_at] no other row exceeds; with none it
    returns the "No elections found" dict, which is neither empty nor
    [None], reads "error" under [status], and differs from every election
    row. *)
Theorem retrieve_last_election_latest_or_marker s :
  numbered "created_at" (elections s) ->
  match elections s with
  | [] => retrieve_last_election s = (Ok (ODict not_found_marker), s)
  | _ :: _ =>
      exists e t,
        e ∈ elections s /\
        e !! "created_at" = Some (VInt t) /\
        (forall r t', r ∈ elections s ->
           r !! "created_at" = Some (VInt t') -> (t' <= t)%Z) /\
        retrieve_last_election s = (Ok (ODict e), s)
  end
  /\ not_found_marker <> ∅
  /\ ODict not_found_marker <> ONone
  /\ obj_truthy (ODict not_found_marker) = true
  /\ not_found_marker !! "status" = Some (VStr "error")
  /\ not_found_marker !! "message" = Some (VStr "No elections found")
  /\ (forall e, e ∈ elections s -> ODict e <> ODict not_found_marker).
Proof.
  intros Hnum. split; [|repeat split]; try done.
  - destruct (elections s) as [|r0 l0] eqn:El.
    + unfold retrieve_last_election, bind, select. simpl. by rewrite El.
    + rewrite <- El in Hnum. rewrite <- El.
      destruct (order_desc_greatest "created_at" (elections s))
        as (e & t & n & Hs & He & Hn & Hmax); [by rewrite El | done |].
      exists e, n. repeat split; auto.
      unfold retrieve_last_election, bind, select. simpl.
      by rewrite project_star, Hs.
  - intros e He [= ->].
    destruct (numbered_elem _ _ _ Hnum He) as [n Hn]. discriminate Hn.
Qed.

Lemma retrieve_last_election_latest_or_marker_witness :
  numbered "created_at" (elections store_two) /\
  exists e t,
    e ∈ elections store_two /\
    e !! "created_at" = Some (VInt t) /\
    (forall r t', r ∈ elections store_two ->
       r !! "created_at" = Some (VInt t') -> (t' <= t)%Z) /\
    retrieve_last_election store_two = (Ok (ODict e), store_two).
Proof.
  assert (H1 : numbered "created_at" (elections store_two)).
  { unfold numbered. apply (bool_decide_unpack _). vm_compute. reflexivity. }
  split; [exact H1|].
  exact (proj1 (retrieve_last_election_latest_or_marker store_two H1)).
Defined.

(** ** [start_election] on success *)

Lemma field_truthy_filled o : field_truthy o = true <-> filled o.
Proof.
  destruct o as [v|]; simpl; [|split; [discriminate | tauto]].
  rewrite negb_true_iff. apply String.eqb_neq.
Qed.

Lemma candidate_entry_complete f i :
  candidate_entry f i
  = if decide (complete f i)
    then Some ({[ "name" := opt_str (f !! ("candidate_name_" +:+ pretty i));
                  "id" := opt_str (f !! ("candidate_id_" +:+ pretty i));
                  "symbol" := opt_str (f !! ("candidate_symbol_" +:+ pretty i)) ]}
               : row)
    else None.
Proof.
  unfold candidate_entry, complete.
  destruct (field_truthy (f !! ("candidate_name_" +:+ pretty i))) eqn:En;
    destruct (field_truthy (f !! ("candidate_symbol_" +:+ pretty i))) eqn:Es;
    simpl; case_decide as Hc; try reflexivity; exfalso.
  - apply Hc. split; by apply field_truthy_filled.
  - destruct Hc as [_ Hc]. apply field_truthy_filled in Hc. congruence.
  - destruct Hc as [Hc _]. apply field_truthy_filled in Hc. congruence.
  - destruct Hc as [Hc _]. apply field_truthy_filled in Hc. congruence.
Qed.

Lemma mapM_cons {A B} (f : A -> result B) a l :
  mapM f (a :: l)
  = match f a with
    | Raise e => Raise e
    | Ok b => match mapM f l with Raise e => Raise e | Ok bs => Ok (b :: bs) end
    end.
Proof. reflexivity. Qed.

Lemma candidate_row_entry election_id (name cand_id symbol : value) :
  candidate_row election_id
    {[ "name" := name; "id" := cand_id; "symbol" := symbol ]}
  = Ok ({[ "election_id" := VInt election_id; "name" := name;
           "cand_id" := cand_id; "symbol" := symbol ]} : row).
Proof. reflexivity. Qed.

(** The comprehension of [store_candidate_data] never raises on the
    entries the loop of [start_election] collects. *)
Lemma candidate_rows_expected f election_id l :
  mapM (candidate_row election_id) (omap (candidate_entry f) l)
  = Ok (expected_candidate f election_id <$> filter (complete f) l).
Proof.
  induction l as [|i l IH]; [reflexivity|].
  cbn [omap list_omap]. rewrite candidate_entry_complete.
  case_decide as Hc.
  - rewrite filter_cons_True by done.
    rewrite mapM_cons, candidate_row_entry.
    fold (omap (candidate_entry f) l). by rewrite IH.
  - rewrite filter_cons_False by done. exact IH.
Qed.

Lemma server_defaults_other t now (l : list row) :
  t <> Elections -> server_defaults t now <$> l = l.
Proof.
  intros Ht. destruct t; [congruence| | |]; simpl; apply list_fmap_id.
Qed.

(** C7: when [start_election] returns its page, the form gave the
    election's id and number of candidates, exactly one election row was
    appended, with [ongoing] true, [results_visibility] false and the three
    tally columns null, and the candidate table grew by one row per entry
    whose name and symbol are both non-empty, the other entries leaving no
    row; votes and admins are untouched. *)
Theorem start_election_inserts_election_and_candidates
    int strptime_time f s h s' :
  start_election int strptime_time f s = (Ok h, s') ->
  exists (election_id num_candidates : Z) (e : row),
    f !! "election_id" ≫= int = Some election_id /\
    f !! "num_candidates" ≫= int = Some num_candidates /\
    elections s' = (elections s ++ [e])%list /\
    e !! "id" = Some (VInt election_id) /\
    e !! "num_candidates" = Some (VInt num_candidates) /\
    e !! "ongoing" = Some (VBool true) /\
    e !! "results_visibility" = Some (VBool false) /\
    e !! "encrypted_sum" = Some VNone /\
    e !! "combined_randomness" = Some VNone /\
    e !! "decrypted_tally" = Some VNone /\
    candidates s'
    = (candidates s ++ expected_candidates f election_id num_candidates)%list /\
    votes s' = votes s /\
    admins s' = admins s.
Proof.
  unfold start_election, bind, lift, form_getitem, parse_int, parse_time.
  intros H.
  destruct (f !! "election_id") as [eid_str|] eqn:E1; [|discriminate].
  destruct (int eid_str) as [election_id|] eqn:E2; [|discriminate].
  destruct (f !! "num_candidates") as [nc_str|] eqn:E3; [|discriminate].
  destruct (int nc_str) as [num_candidates|] eqn:E4; [|discriminate].
  destruct (f !! "start_time") as [st_str|] eqn:E5; [|discriminate].
  destruct (f !! "end_time") as [et_str|] eqn:E6; [|discriminate].
  destruct (strptime_time st_str) as [start_time|] eqn:E7; [|discriminate].
  destruct (strptime_time et_str) as [end_time|] eqn:E8; [|discriminate].
  unfold store_election_data, store_candidate_data, bind, lift, ret, insert in H.
  rewrite candidate_rows_expected in H.
  cbn [data fst snd] in H.
  rewrite list_fmap_singleton in H.
  rewrite !(server_defaults_other Candidates) in H by discriminate.
  match type of H with
  | context [server_defaults Elections ?c ?r] =>
      set (e := server_defaults Elections c r) in H
  end.
  assert (He :
    e !! "id" = Some (VInt election_id) /\
    e !! "num_candidates" = Some (VInt num_candidates) /\
    e !! "ongoing" = Some (VBool true) /\
    e !! "results_visibility" = Some (VBool false) /\
    e !! "encrypted_sum" = Some VNone /\
    e !! "combined_randomness" = Some VNone /\
    e !! "decrypted_tally" = Some VNone)
    by (repeat split; reflexivity).
  clearbody e.
  match type of H with
  | (if ?c then _ else _) _ = _ => destruct c
  end; [|discriminate].
  unfold select in H. simpl in H. injection H as <- <-.
  exists election_id, num_candidates, e.
  simpl. rewrite E2, E4.
  destruct He as (? & ? & ? & ? & ? & ? & ?).
  repeat split; auto.
Qed.

Lemma start_election_inserts_election_and_candidates_witness :
  exists (election_id num_candidates : Z) (e : row),
    form_AB "1" !! "election_id" ≫= int_of_decimal = Some election_id /\
    form_AB "1" !! "num_candidates" ≫= int_of_decimal = Some num_candidates /\
    elections store_ongoing = (elections empty_store ++ [e])%list /\
    e !! "id" = Some (VInt election_id) /\
    e !! "num_candidates" = Some (VInt num_candidates) /\
    e !! "ongoing" = Some (VBool true) /\
    e !! "results_visibility" = Some (VBool false) /\
    e !! "encrypted_sum" = Some VNone /\
    e !! "combined_randomness" = Some VNone /\
    e !! "decrypted_tally" = Some VNone /\
    candidates store_ongoing
    = (candidates empty_store
         ++ expected_candidates (form_AB "1") election_id num_candidates)%list /\
    votes store_ongoing = votes empty_store /\
    admins store_ongoing = admins empty_store.
Proof.
  refine (start_election_inserts_election_and_candidates
            int_of_decimal time_of_stamp (form_AB "1") empty_store
            (render_template "admin_dashboard.html"
               [("elections", OList (elections store_ongoing));
                ("last_election", last_or_None (elections store_ongoing))])
            store_ongoing _).
  vm_compute. reflexivity.
Defined.


Example expected_candidates_demo :
  (fun r => r !! "name") <$> expected_candidates (form_AB "1") 1 3
  = [Some (VStr "A"); Some (VStr "B")].
Proof. vm_compute. reflexivity. Qed.

(** ** What each call does to the election table *)

Lemma store_vote_data_elections
    cnic ballot_id election_id encryption hash_value random_factor timestamp s :
  elections (snd (store_vote_data cnic ballot_id election_id encryption
                    hash_value random_factor timestamp s))
  = elections s.
Proof. unfold store_vote_data. by destruct (tzinfo timestamp). Qed.

Lemma store_election_data_elections
    election_id num_candidates start_time end_time status results_visibility
    encrypted_sum encrypted_randomness decrypted_tally s :
  exists e : row,
    elections (snd (store_election_data election_id num_candidates start_time
                      end_time status results_visibility encrypted_sum
                      encrypted_randomness decrypted_tally s))
    = (elections s ++ [e])%list /\
    e !! "id" = Some (VInt election_id) /\
    e !! "ongoing" = Some (VBool status) /\
    e !! "results_visibility" = Some (VBool results_visibility) /\
    e !! "election_id" = None.
Proof.
  eexists. split; [reflexivity|]. repeat split; reflexivity.
Qed.

Lemma store_election_data_returns
    election_id num_candidates start_time end_time status results_visibility
    encrypted_sum encrypted_randomness decrypted_tally s :
  exists r,
    store_election_data election_id num_candidates start_time end_time status
      results_visibility encrypted_sum encrypted_randomness decrypted_tally s
    = (Ok r,
       snd (store_election_data election_id num_candidates start_time end_time
              status results_visibility encrypted_sum encrypted_randomness
              decrypted_tally s)).
Proof. eexists. reflexivity. Qed.

Lemma store_candidate_data_elections election_id candidates s :
  elections (snd (store_candidate_data election_id candidates s)) = elections s.
Proof.
  unfold store_candidate_data, bind, lift.
  by destruct (mapM (candidate_row election_id) candidates).
Qed.

Lemma update_result_visibility_elections election_id status s :
  elections (snd (update_result_visibility election_id status s)) = elections s
  \/ elections (snd (update_result_visibility election_id status s))
     = patch_row {[ "results_visibility" := VBool true ]} "id" (VInt election_id)
         <$> elections s.
Proof.
  unfold update_result_visibility, retrieve_election_data, bind, select, ret.
  simpl.
  destruct (list_truthy _); [|by left].
  destruct (head _) as [d|]; [|by left].
  destruct (dict_truthy d); simpl; [|by left].
  unfold lift. destruct (getitem d "ongoing") as [v|]; [|by left].
  destruct (truthy v); simpl; [by left|]. by right.
Qed.

Lemma end_election_elections s :
  elections (snd (end_election s)) = elections s
  \/ exists v,
       elections (snd (end_election s))
       = patch_row {[ "ongoing" := VBool false ]} "id" v <$> elections s.
Proof.
  unfold end_election, bind, select, ret. simpl.
  destruct (project Star <$> _) as [|last_election ?]; [by left|].
  unfold lift. destruct (getitem last_election "id") as [v|]; [|by left].
  right. by exists v.
Qed.

(** The store [start_election] leaves is the one its two inserts leave,
    unless it raised before them. *)
Lemma start_election_store int strptime_time f s :
  snd (start_election int strptime_time f s) = s
  \/ exists election_id num_candidates start_time end_time candidates,
       snd (start_election int strptime_time f s)
       = snd (store_candidate_data election_id candidates
                (snd (store_election_data election_id num_candidates
                        start_time end_time true false None None None s))).
Proof.
  unfold start_election, bind, lift, form_getitem, parse_int, parse_time.
  destruct (f !! "election_id") as [eid_str|]; [|by left].
  destruct (int eid_str) as [election_id|]; [|by left].
  destruct (f !! "num_candidates") as [nc_str|]; [|by left].
  destruct (int nc_str) as [num_candidates|]; [|by left].
  destruct (f !! "start_time") as [st_str|]; [|by left].
  destruct (f !! "end_time") as [et_str|]; [|by left].
  destruct (strptime_time st_str) as [start_time|]; [|by left].
  destruct (strptime_time et_str) as [end_time|]; [|by left].
  right.
  exists election_id, num_candidates, start_time, end_time,
    (omap (candidate_entry f) (seqZ 1 num_candidates)).
  destruct (store_election_data_returns election_id num_candidates start_time
              end_time true false None None None s) as [r1 ->].
  cbn [fst snd].
  destruct (store_candidate_data _ _ _) as [[r2|e2] s2]; [|reflexivity].
  cbn [fst snd]. by destruct (list_truthy (data r1) && list_truthy (data r2)).
Qed.

Lemma start_election_elections int strptime_time f s :
  elections (snd (start_election int strptime_time f s)) = elections s
  \/ exists e : row,
       elections (snd (start_election int strptime_time f s))
       = (elections s ++ [e])%list /\
       e !! "ongoing" = Some (VBool true) /\
       e !! "results_visibility" = Some (VBool false) /\
       e !! "election_id" = None.
Proof.
  destruct (start_election_store int strptime_time f s)
    as [->|(eid & nc & st & et & cs & ->)]; [by left|].
  right. rewrite store_candidate_data_elections.
  destruct (store_election_data_elections eid nc st et true false None None None s)
    as (e & -> & _ & Ho & Hv & Hk).
  by exists e.
Qed.

(** ** The two updates *)

Lemma touched_close col v r :
  touched r (patch_row {[ "ongoing" := VBool false ]} col v r).
Proof.
  unfold patch_row. destruct (hit col v r); [|constructor].
  rewrite <- insert_union_singleton_l. constructor.
Qed.

Lemma touched_publish col v r :
  touched r (patch_row {[ "results_visibility" := VBool true ]} col v r).
Proof.
  unfold patch_row. destruct (hit col v r); [|constructor].
  rewrite <- insert_union_singleton_l. constructor.
Qed.

Lemma touched_one_way r r' : touched r r' -> one_way r r'.
Proof.
  unfold one_way. destruct 1; repeat split; auto;
    rewrite ?lookup_insert_eq; auto; rewrite lookup_insert_ne; auto;
    discriminate.
Qed.

Lemma one_way_trans r1 r2 r3 : one_way r1 r2 -> one_way r2 r3 -> one_way r1 r3.
Proof.
  unfold one_way. intros (Hi & Ho & Hv) (Hi' & Ho' & Hv').
  repeat split; [congruence|auto..].
Qed.

(** ** One-way flags *)

Lemma Forall2_touched_map (f : row -> row) l :
  (forall r, touched r (f r)) -> Forall2 touched l (f <$> l).
Proof.
  intros Hf. induction l as [|r l IH]; [constructor|].
  rewrite fmap_cons. by constructor.
Qed.

Lemma Forall2_touched_refl l : Forall2 touched l l.
Proof. induction l; constructor; [constructor | done]. Qed.

Lemma exec_touches o s :
  exists kept new,
    elections (exec o s) = (kept ++ new)%list /\
    Forall2 touched (elections s) kept.
Proof.
  destruct o as [cnic b e enc h rf ts|eid nc st et status rv es er dt
                |eid cs|eid status|]; cbn [exec].
  - exists (elections s), []. rewrite store_vote_data_elections, app_nil_r.
    auto using Forall2_touched_refl.
  - destruct (store_election_data_elections eid nc st et status rv es er dt s)
      as (e & -> & _).
    exists (elections s), [e]. auto using Forall2_touched_refl.
  - exists (elections s), []. rewrite store_candidate_data_elections, app_nil_r.
    auto using Forall2_touched_refl.
  - destruct (update_result_visibility_elections eid status s) as [->| ->].
    + exists (elections s), []. rewrite app_nil_r.
      auto using Forall2_touched_refl.
    + eexists _, []. rewrite app_nil_r. split; [reflexivity|].
      apply Forall2_touched_map. intros r. apply touched_publish.
  - destruct (end_election_elections s) as [->|[v ->]].
    + exists (elections s), []. rewrite app_nil_r.
      auto using Forall2_touched_refl.
    + eexists _, []. rewrite app_nil_r. split; [reflexivity|].
      apply Forall2_touched_map. intros r. apply touched_close.
Qed.

Lemma exec_all_one_way os s :
  exists kept new,
    elections (exec_all os s) = (kept ++ new)%list /\
    Forall2 one_way (elections s) kept.
Proof.
  revert s. induction os as [|o os IH]; intros s.
  - exists (elections s), []. rewrite app_nil_r. split; [reflexivity|].
    eapply Forall2_impl; [apply Forall2_touched_refl|].
    apply touched_one_way.
  - destruct (exec_touches o s) as (k1 & n1 & E1 & H1).
    destruct (IH (exec o s)) as (k2 & n2 & E2 & H2).
    rewrite E1 in H2.
    apply Forall2_app_inv_l in H2 as (ka & kb & Ha & Hb & ->).
    exists ka, (kb ++ n2)%list. split.
    + change (exec_all (o :: os) s) with (exec_all os (exec o s)).
      by rewrite E2, <- app_assoc.
    + eapply Forall2_trans; [|eapply Forall2_impl; [exact H1|]|exact Ha].
      * intros r1 r2 r3. apply one_way_trans.
      * apply touched_one_way.
Qed.

(** C10: a call leaves each election row as it was, or with [ongoing]
    set to false, or with [results_visibility] set to true, new rows
    coming after the old ones; so over any sequence of calls a row keeps
    its id, stays closed once closed and stays published once published.
    A row inserted by [store_election_data] carries the two flags the
    caller passed. *)
Theorem election_flags_move_one_way :
  (forall o s, exists kept new,
      elections (exec o s) = (kept ++ new)%list /\
      Forall2 touched (elections s) kept)
  /\ (forall os s, exists kept new,
        elections (exec_all os s) = (kept ++ new)%list /\
        Forall2 one_way (elections s) kept)
  /\ (forall election_id num_candidates start_time end_time status
             results_visibility encrypted_sum encrypted_randomness
             decrypted_tally s,
        exists e : row,
          elections (exec (StoreElectionData election_id num_candidates
                             start_time end_time status results_visibility
                             encrypted_sum encrypted_randomness
                             decrypted_tally) s)
          = (elections s ++ [e])%list /\
          e !! "ongoing" = Some (VBool status) /\
          e !! "results_visibility" = Some (VBool results_visibility)).
Proof.
  split; [exact exec_touches|]. split; [exact exec_all_one_way|].
  intros eid nc st et status rv es er dt s. cbn [exec].
  destruct (store_election_data_elections eid nc st et status rv es er dt s)
    as (e & He & _ & Ho & Hv & _).
  by exists e.
Qed.

Example flags_after_a_run :
  (fun r => (r !! "id", r !! "ongoing", r !! "results_visibility"))
    <$> elections
          (exec_all [EndElection; UpdateResultVisibility 1 true;
                     StoreElectionData 2 1 {| hour := 9; minute := 0 |}
                       {| hour := 17; minute := 0 |} true false None None None;
                     UpdateResultVisibility 2 true]
             store_ongoing)
  = [(Some (VInt 1), Some (VBool false), Some (VBool false));
     (Some (VInt 2), Some (VBool true), Some (VBool false))].
Proof. vm_compute. reflexivity. Qed.

(** ** Visibility of votes *)

Lemma closed_when_visible_ext s s' :
  elections s' = elections s -> closed_when_visible s -> closed_when_visible s'.
Proof. unfold closed_when_visible. by intros ->. Qed.

Lemma keyed_by_id_ext s s' :
  elections s' = elections s -> keyed_by_id s -> keyed_by_id s'.
Proof. unfold keyed_by_id. by intros ->. Qed.

Lemma end_election_handler_store s :
  snd (end_election_handler s) = snd (end_election s).
Proof.
  unfold end_election_handler, bind, ret.
  by destruct (end_election s) as [[?|?] ?].
Qed.

Lemma patch_row_close col v r :
  patch_row {[ "ongoing" := VBool false ]} col v r = r
  \/ patch_row {[ "ongoing" := VBool false ]} col v r
     = <["ongoing" := VBool false]> r.
Proof.
  unfold patch_row. destruct (hit col v r); [right|by left].
  by rewrite <- insert_union_singleton_l.
Qed.

(** Every request keeps both conditions. *)
Lemma serve_keeps int strptime_time q s :
  closed_when_visible s /\ keyed_by_id s ->
  closed_when_visible (serve int strptime_time q s) /\
  keyed_by_id (serve int strptime_time q s).
Proof.
  intros [Hc Hk].
  destruct q as [f| |eid status|cnic b e enc h rf ts]; cbn [serve].
  - destruct (start_election_elections int strptime_time f s)
      as [E|(e & E & Ho & Hv & He)].
    + eauto using closed_when_visible_ext, keyed_by_id_ext.
    + unfold closed_when_visible, keyed_by_id in *. rewrite E.
      split; apply Forall_app; (split; [done|]); apply Forall_singleton;
        [congruence | done].
  - rewrite end_election_handler_store.
    destruct (end_election_elections s) as [E|[v E]].
    + eauto using closed_when_visible_ext, keyed_by_id_ext.
    + unfold closed_when_visible, keyed_by_id in *. rewrite E.
      split; apply Forall_fmap.
      * eapply Forall_impl; [exact Hc|]. intros r Hr. unfold compose.
        destruct (patch_row_close "id" v r) as [-> | ->]; [done|].
        intros _. apply lookup_insert_eq.
      * eapply Forall_impl; [exact Hk|]. intros r Hr. unfold compose.
        destruct (patch_row_close "id" v r) as [-> | ->]; [done|].
        by rewrite lookup_insert_ne.
  - rewrite update_result_visibility_misses by done. by split.
  - split.
    + eapply closed_when_visible_ext; [apply store_vote_data_elections|done].
    + eapply keyed_by_id_ext; [apply store_vote_data_elections|done].
Qed.

Lemma reachable_keeps int strptime_time s0 s :
  reachable int strptime_time s0 s ->
  closed_when_visible s0 /\ keyed_by_id s0 ->
  closed_when_visible s /\ keyed_by_id s.
Proof. induction 1; auto using serve_keeps. Qed.

Lemma truthy_or_empty (l : list row) : (if list_truthy l then l else []) = l.
Proof. by destruct l. Qed.

(** What [search_encryptions] answers, by the first row whose results are
    visible. *)
Lemma search_encryptions_first_visible s :
  match eq_ "results_visibility" (VBool true) (elections s) with
  | [] => search_encryptions s = (Ok (body_status "No visible results" 403), s)
  | e :: _ =>
      match e !! "id" with
      | Some election_id =>
          search_encryptions s
          = (Ok (render_template "search_encryptions.html"
                   [("votes", OList (eq_ "election_id" election_id (votes s)))]),
             s)
      | None => search_encryptions s = (Raise (KeyError "id"), s)
      end
  end.
Proof.
  unfold search_encryptions, get_visible_election, bind, select. simpl.
  rewrite project_star.
  destruct (eq_ "results_visibility" (VBool true) (elections s))
    as [|e t] eqn:E; [reflexivity|].
  assert (He : e !! "results_visibility" = Some (VBool true)).
  { apply (elem_of_eq_ _ _ (elections s)). rewrite E. by left. }
  simpl. unfold dict_truthy.
  rewrite bool_decide_eq_false_2.
  2:{ intros ->. by rewrite lookup_empty in He. }
  simpl. unfold lift, getitem.
  destruct (e !! "id") as [election_id|]; [|reflexivity].
  unfold get_votes_by_election, bind, select, ret. simpl.
  by rewrite project_star, truthy_or_empty.
Qed.

(** C8: in every state reached from one where visible elections are
    closed, and in which the election ids are distinct, the search either
    answers "No visible results", or picks an election row that is closed
    and visible and shows the votes stored under that row's id (raising
    [KeyError] if the row has none); every election row a shown vote
    belongs to is closed and visible, so no vote of an ongoing election is
    shown. *)
Theorem search_encryptions_closed_and_visible_only int strptime_time s0 s :
  closed_when_visible s0 ->
  keyed_by_id s0 ->
  reachable int strptime_time s0 s ->
  NoDup (ids (elections s)) ->
  search_encryptions s = (Ok (body_status "No visible results" 403), s)
  \/ exists e,
       e ∈ elections s /\
       e !! "ongoing" = Some (VBool false) /\
       e !! "results_visibility" = Some (VBool true) /\
       match e !! "id" with
       | Some election_id =>
           search_encryptions s
           = (Ok (render_template "search_encryptions.html"
                    [("votes", OList (eq_ "election_id" election_id (votes s)))]),
              s) /\
           (forall v r,
              v ∈ eq_ "election_id" election_id (votes s) ->
              r ∈ elections s ->
              r !! "id" = v !! "election_id" ->
              r !! "ongoing" = Some (VBool false) /\
              r !! "results_visibility" = Some (VBool true))
       | None => search_encryptions s = (Raise (KeyError "id"), s)
       end.
Proof.
  intros Hc Hk Hreach Hnd.
  destruct (reachable_keeps _ _ _ _ Hreach (conj Hc Hk)) as [Hc' _].
  pose proof (search_encryptions_first_visible s) as Hs.
  destruct (eq_ "results_visibility" (VBool true) (elections s))
    as [|e t] eqn:E; [by left|].
  right. exists e.
  assert (He : e ∈ eq_ "results_visibility" (VBool true) (elections s))
    by (rewrite E; by left).
  apply elem_of_eq_ in He as [Hv He].
  unfold closed_when_visible in Hc'. rewrite Forall_forall in Hc'.
  pose proof (Hc' e He Hv) as Ho.
  split; [exact He|]. split; [exact Ho|]. split; [exact Hv|].
  destruct (e !! "id") as [election_id|] eqn:Hid; [|exact Hs].
  split; [exact Hs|].
  intros v r Hin Hr Hrid.
  apply elem_of_eq_ in Hin as [Hvid _].
  assert (r = e) as ->.
  { apply (ids_inj (elections s)); auto. congruence. }
  by split.
Qed.

(** From the published election 1: election 2 is started and receives a
    vote; the search still shows the votes of election 1 only. *)
Lemma search_encryptions_closed_and_visible_only_witness :
  closed_when_visible store_published /\
  keyed_by_id store_published /\
  NoDup (ids (elections store_next_election)) /\
  (search_encryptions store_next_election
   = (Ok (body_status "No visible results" 403), store_next_election)
   \/ exists e,
        e ∈ elections store_next_election /\
        e !! "ongoing" = Some (VBool false) /\
        e !! "results_visibility" = Some (VBool true) /\
        match e !! "id" with
        | Some election_id =>
            search_encryptions store_next_election
            = (Ok (render_template "search_encryptions.html"
                     [("votes",
                       OList (eq_ "election_id" election_id
                                (votes store_next_election)))]),
               store_next_election) /\
            (forall v r,
               v ∈ eq_ "election_id" election_id (votes store_next_election) ->
               r ∈ elections store_next_election ->
               r !! "id" = v !! "election_id" ->
               r !! "ongoing" = Some (VBool false) /\
               r !! "results_visibility" = Some (VBool true))
        | None =>
            search_encryptions store_next_election
            = (Raise (KeyError "id"), store_next_election)
        end).
Proof.
  assert (H1 : closed_when_visible store_published).
  { apply (bool_decide_unpack _). vm_compute. reflexivity. }
  assert (H2 : keyed_by_id store_published).
  { apply (bool_decide_unpack _). vm_compute. reflexivity. }
  assert (H3 : NoDup (ids (elections store_next_election))).
  { apply (bool_decide_unpack _). vm_compute. reflexivity. }
  split; [exact H1|]. split; [exact H2|]. split; [exact H3|].
  apply (search_encryptions_closed_and_visible_only
           int_of_decimal time_of_stamp store_published store_next_election
           H1 H2); [|exact H3].
  unfold store_next_election.
  apply reachable_serve, reachable_serve, reachable_start.
Defined.

Example search_after_new_election :
  (fun r => (r !! "id", r !! "ongoing", r !! "results_visibility"))
    <$> elections store_next_election
  = [(Some (VInt 1), Some (VBool false), Some (VBool true));
     (Some (VInt 2), Some (VBool true), Some (VBool false))]
  /\ (fun r => r !! "election_id") <$> votes store_next_election
     = [Some (VInt 1); Some (VInt 2)]
  /\ exists shown,
       fst (search_encryptions store_next_election)
       = Ok (render_template "search_encryptions.html" [("votes", OList shown)])
       /\ (fun r => r !! "election_id") <$> shown = [Some (VInt 1)].
Proof.
  repeat split; try (vm_compute; reflexivity).
  eexists. split; vm_compute; reflexivity.
Qed.

(** ** [retrieve_vote_data] *)

Lemma eq_nil_iff col v (l : list row) :
  eq_ col v l = [] <-> forall r, r ∈ l -> r !! col <> Some v.
Proof.
  split.
  - intros E r Hr Hv.
    assert (H : r ∈ eq_ col v l) by (by apply elem_of_eq_).
    rewrite E in H. by apply elem_of_nil in H.
  - intros H. destruct (eq_ col v l) as [|r t] eqn:E; [done|].
    assert (Hr : r ∈ eq_ col v l) by (rewrite E; by left).
    apply elem_of_eq_ in Hr as [Hv Hr]. by destruct (H r Hr).
Qed.

Lemma retrieve_vote_data_first cnic s :
  retrieve_vote_data cnic s = (Ok (head (eq_ "CNIC" (VStr cnic) (votes s))), s).
Proof.
  unfold retrieve_vote_data, bind, select, ret. simpl.
  rewrite project_star. by destruct (eq_ _ _ _).
Qed.

(** C6: [store_vote_data] writes the voter key under [cnic] while
    [retrieve_vote_data] filters on [CNIC], so storing a vote never
    changes what the lookup answers, for any voter asked about; and right
    after the vote of voter 12345 for the ongoing election 1 is stored,
    the lookup for that voter answers [None], as it did before, instead of
    the stored row. *)
Theorem retrieve_vote_data_misses_stored_vote :
  (forall cnic ballot_id election_id encryption hash_value random_factor
          timestamp looked s,
     fst (retrieve_vote_data looked
            (snd (store_vote_data cnic ballot_id election_id encryption
                    hash_value random_factor timestamp s)))
     = fst (retrieve_vote_data looked s))
  /\ (fun r => (r !! "cnic", r !! "election_id")) <$> votes store_voted
     = [(Some (VStr "12345"), Some (VInt 1))]
  /\ retrieve_vote_data "12345" store_ongoing = (Ok None, store_ongoing)
  /\ retrieve_vote_data "12345" store_voted = (Ok None, store_voted).
Proof.
  split; [|repeat split; vm_compute; reflexivity].
  intros cnic ballot_id election_id encryption hash_value random_factor
    timestamp looked s.
  rewrite !retrieve_vote_data_first. cbn [fst]. f_equal.
  unfold store_vote_data. destruct (tzinfo timestamp) as [off|];
    [|reflexivity].
  unfold bind, insert, ret. cbn [fst snd].
  rewrite list_fmap_singleton.
  match goal with
  | |- context [server_defaults Votes ?c ?r] =>
      set (r0 := server_defaults Votes c r)
  end.
  assert (Hr : r0 !! "CNIC" = None) by reflexivity.
  clearbody r0. simpl. unfold eq_.
  rewrite filter_app, filter_cons_False by (rewrite Hr; discriminate).
  by rewrite filter_nil, app_nil_r.
Qed.

(** ** The check of [election_setup] *)

Lemma any_ongoing_project (l : list row) :
  Forall (fun r => is_Some (r !! "ongoing")) l ->
  any_ongoing (project (Col "ongoing") <$> l) = Ok (existsb is_ongoing l).
Proof.
  induction 1 as [|r l [v Hv] _ IH]; [reflexivity|].
  rewrite fmap_cons. cbn [any_ongoing existsb project].
  unfold is_ongoing at 1. rewrite Hv.
  unfold getitem. rewrite lookup_singleton_eq.
  destruct (eq_True v); [reflexivity | exact IH].
Qed.

Lemma any_ongoing_false (l : list row) :
  any_ongoing (project (Col "ongoing") <$> l) = Ok false ->
  Forall (fun r => is_ongoing r = false) l.
Proof.
  induction l as [|r l IH]; [constructor|].
  rewrite fmap_cons. cbn [any_ongoing project]. unfold getitem.
  destruct (r !! "ongoing") as [v|] eqn:Hv.
  - rewrite lookup_singleton_eq.
    destruct (eq_True v) eqn:Ev; [discriminate|].
    intros H. constructor; [|by apply IH].
    unfold is_ongoing. by rewrite Hv.
  - rewrite lookup_empty. discriminate.
Qed.

(** X1: on a table whose rows all have the [ongoing] column,
    [election_setup] answers 403 when some election is ongoing and shows
    the setup form when none is, and never writes. *)
Theorem election_setup_refuses_while_ongoing s :
  Forall (fun r => is_Some (r !! "ongoing")) (elections s) ->
  election_setup s
  = (Ok (if existsb is_ongoing (elections s)
         then body_status "An election is already ongoing!" 403
         else render_template "election_setup.html" []), s).
Proof.
  intros H. unfold election_setup, bind, select, lift, ret. simpl.
  rewrite (any_ongoing_project _ H).
  by destruct (existsb is_ongoing (elections s)).
Qed.

Lemma election_setup_refuses_while_ongoing_witness :
  Forall (fun r => is_Some (r !! "ongoing")) (elections store_two) /\
  election_setup store_two
  = (Ok (if existsb is_ongoing (elections store_two)
         then body_status "An election is already ongoing!" 403
         else render_template "election_setup.html" []), store_two).
Proof.
  assert (H : Forall (fun r => is_Some (r !! "ongoing")) (elections store_two)).
  { apply (bool_decide_unpack _). vm_compute. reflexivity. }
  split; [exact H|].
  exact (election_setup_refuses_while_ongoing store_two H).
Defined.

(** X2: when [election_setup] shows the setup form on a store and
    [start_election] then runs on that store, at most one election is
    ongoing afterwards. *)
Theorem start_election_after_setup_single_ongoing int strptime_time f s :
  election_setup s = (Ok (render_template "election_setup.html" []), s) ->
  ongoing_count s = 0%nat /\
  (ongoing_count (snd (start_election int strptime_time f s)) <= 1)%nat.
Proof.
  unfold election_setup, bind, select, lift, ret. simpl. intros H.
  destruct (any_ongoing _) as [[|]|] eqn:E; try discriminate. clear H.
  apply any_ongoing_false in E.
  assert (H0 : filter (fun r => is_ongoing r = true) (elections s) = []).
  { induction E as [|r l Hr _ IH]; [reflexivity|].
    rewrite filter_cons_False; [exact IH | congruence]. }
  unfold ongoing_count. rewrite H0. split; [reflexivity|].
  destruct (start_election_elections int strptime_time f s)
    as [-> | (e & -> & _)].
  - rewrite H0. simpl. lia.
  - rewrite filter_app, H0, length_app. simpl.
    pose proof (length_filter (fun r => is_ongoing r = true) [e]) as Hle.
    simpl in Hle. lia.
Qed.

Lemma start_election_after_setup_single_ongoing_witness :
  election_setup store_closed
  = (Ok (render_template "election_setup.html" []), store_closed) /\
  ongoing_count store_closed = 0%nat /\
  (ongoing_count
     (snd (start_election int_of_decimal time_of_stamp (form_AB "2")
             store_closed)) <= 1)%nat.
Proof.
  assert (H : election_setup store_closed
              = (Ok (render_template "election_setup.html" []), store_closed))
    by (vm_compute; reflexivity).
  split; [exact H|].
  exact (start_election_after_setup_single_ongoing
           int_of_decimal time_of_stamp (form_AB "2") store_closed H).
Defined.

(** ** [store_candidate_data] on arbitrary entries *)

Lemma candidate_row_readable election_id c :
  readable c ->
  exists r,
    candidate_row election_id c = Ok r /\
    r !! "election_id" = Some (VInt election_id) /\
    r !! "name" = c !! "name" /\
    r !! "cand_id" = c !! "id" /\
    r !! "symbol" = c !! "symbol".
Proof.
  intros ([n Hn] & [i Hi] & [y Hy]).
  unfold candidate_row, getitem. rewrite Hn, Hi, Hy.
  eexists. split; [reflexivity|]. repeat split; reflexivity.
Qed.

Lemma candidate_row_unreadable election_id c :
  ~ readable c ->
  exists k, candidate_row election_id c = Raise (KeyError k) /\
            k ∈ ["name"; "id"; "symbol"].
Proof.
  intros Hc. unfold candidate_row, getitem.
  destruct (c !! "name") as [n|] eqn:Hn;
    [|exists "name"; split; [done | set_solver]].
  destruct (c !! "id") as [i|] eqn:Hi;
    [|exists "id"; split; [done | set_solver]].
  destruct (c !! "symbol") as [y|] eqn:Hy;
    [|exists "symbol"; split; [done | set_solver]].
  destruct Hc. unfold readable. rewrite Hn, Hi, Hy. eauto.
Qed.

(** X3: when every candidate dict has its name, id and symbol, the
    candidate table after [store_candidate_data] is the one before
    followed by one row per dict, in order, each with the election id and
    the dict's three values; the elections, the votes and the admins are
    as they were. *)
Theorem store_candidate_data_appends_in_order election_id cs s :
  Forall readable cs ->
  exists rows s',
    store_candidate_data election_id cs s
    = (Ok {| data := rows; status_code := 201 |}, s') /\
    s' = tick (set_rows Candidates (candidates s ++ rows) s) /\
    candidates s' = (candidates s ++ rows)%list /\
    elections s' = elections s /\
    votes s' = votes s /\
    admins s' = admins s /\
    Forall2 (fun c r =>
               r !! "election_id" = Some (VInt election_id) /\
               r !! "name" = c !! "name" /\
               r !! "cand_id" = c !! "id" /\
               r !! "symbol" = c !! "symbol") cs rows.
Proof.
  intros Hcs.
  assert (Hmap : exists rows,
            mapM (candidate_row election_id) cs = Ok rows /\
            Forall2 (fun c r =>
               r !! "election_id" = Some (VInt election_id) /\
               r !! "name" = c !! "name" /\
               r !! "cand_id" = c !! "id" /\
               r !! "symbol" = c !! "symbol") cs rows).
  { induction Hcs as [|c cs Hc _ (rows & IH & HF)].
    - exists []. split; [reflexivity | constructor].
    - destruct (candidate_row_readable election_id c Hc) as (r & Hr & Hp).
      exists (r :: rows). split; [|by constructor].
      by rewrite mapM_cons, Hr, IH. }
  destruct Hmap as (rows & Hm & HF).
  exists rows, (tick (set_rows Candidates (candidates s ++ rows) s)).
  split; [|by repeat split].
  unfold store_candidate_data, bind, lift, insert, ret. rewrite Hm.
  cbn [fst snd]. by rewrite server_defaults_other.
Qed.

Lemma store_candidate_data_appends_in_order_witness :
  Forall readable [ ({[ "name" := VStr "A"; "id" := VStr "1"; "symbol" := VStr "x" ]} : row);
                    {[ "name" := VStr "B"; "id" := VNone; "symbol" := VStr "y" ]} ] /\
  exists rows s',
    store_candidate_data 7
      [ {[ "name" := VStr "A"; "id" := VStr "1"; "symbol" := VStr "x" ]};
        {[ "name" := VStr "B"; "id" := VNone; "symbol" := VStr "y" ]} ]
      store_ongoing
    = (Ok {| data := rows; status_code := 201 |}, s') /\
    s' = tick (set_rows Candidates (candidates store_ongoing ++ rows)
                 store_ongoing) /\
    candidates s' = (candidates store_ongoing ++ rows)%list /\
    elections s' = elections store_ongoing /\
    votes s' = votes store_ongoing /\
    admins s' = admins store_ongoing /\
    Forall2 (fun c r =>
               r !! "election_id" = Some (VInt 7) /\
               r !! "name" = c !! "name" /\
               r !! "cand_id" = c !! "id" /\
               r !! "symbol" = c !! "symbol")
      [ ({[ "name" := VStr "A"; "id" := VStr "1"; "symbol" := VStr "x" ]} : row);
        {[ "name" := VStr "B"; "id" := VNone; "symbol" := VStr "y" ]} ]
      rows.
Proof.
  assert (H : Forall readable
    [ ({[ "name" := VStr "A"; "id" := VStr "1"; "symbol" := VStr "x" ]} : row);
      {[ "name" := VStr "B"; "id" := VNone; "symbol" := VStr "y" ]} ]).
  { apply (bool_decide_unpack _). vm_compute. reflexivity. }
  split; [exact H|].
  exact (store_candidate_data_appends_in_order 7 _ store_ongoing H).
Defined.

(** X4: when some candidate dict lacks its name, id or symbol,
    [store_candidate_data] raises [KeyError] on one of the three keys and
    inserts no row at all, the dicts before the faulty one included. *)
Theorem store_candidate_data_unreadable_entry election_id cs s :
  Exists (fun c => ~ readable c) cs ->
  exists k,
    store_candidate_data election_id cs s = (Raise (KeyError k), s) /\
    k ∈ ["name"; "id"; "symbol"].
Proof.
  intros Hcs.
  assert (Hmap : exists k,
            mapM (candidate_row election_id) cs = Raise (KeyError k) /\
            k ∈ ["name"; "id"; "symbol"]).
  { induction cs as [|c cs IH]; [by apply Exists_nil in Hcs|].
    rewrite mapM_cons.
    destruct (decide (readable c)) as [Hc|Hc].
    - destruct (candidate_row_readable election_id c Hc) as (r & -> & _).
      apply Exists_cons in Hcs as [Hbad|Hcs]; [done|].
      destruct (IH Hcs) as (k & -> & Hk). by exists k.
    - destruct (candidate_row_unreadable election_id c Hc) as (k & -> & Hk).
      by exists k. }
  destruct Hmap as (k & Hm & Hk). exists k. split; [|exact Hk].
  unfold store_candidate_data, bind, lift. by rewrite Hm.
Qed.

Lemma store_candidate_data_unreadable_entry_witness :
  Exists (fun c => ~ readable c)
    [ ({[ "name" := VStr "A"; "id" := VStr "1"; "symbol" := VStr "x" ]} : row);
      {[ "name" := VStr "B"; "id" := VStr "2" ]} ] /\
  exists k,
    store_candidate_data 7
      [ {[ "name" := VStr "A"; "id" := VStr "1"; "symbol" := VStr "x" ]};
        {[ "name" := VStr "B"; "id" := VStr "2" ]} ]
      store_ongoing
    = (Raise (KeyError k), store_ongoing) /\
    k ∈ ["name"; "id"; "symbol"].
Proof.
  assert (H : Exists (fun c => ~ readable c)
    [ ({[ "name" := VStr "A"; "id" := VStr "1"; "symbol" := VStr "x" ]} : row);
      {[ "name" := VStr "B"; "id" := VStr "2" ]} ]).
  { apply (bool_decide_unpack _). vm_compute. reflexivity. }
  split; [exact H|].
  exact (store_candidate_data_unreadable_entry 7 _ store_ongoing H).
Defined.

Lemma store_vote_data_stores
    cnic ballot_id election_id encryption hash_value random_factor timestamp
    off s :
  tzinfo timestamp = Some off ->
  exists r,
    store_vote_data cnic ballot_id election_id encryption hash_value
      random_factor timestamp s
    = (Ok {| data := [r]; status_code := 201 |},
       tick (set_rows Votes (votes s ++ [r]) s)) /\
    r !! "cnic" = Some (VStr cnic) /\
    r !! "ballot_id" = Some (VInt ballot_id) /\
    r !! "election_id" = Some (VInt election_id) /\
    r !! "encrypted_vote" = Some (VStr encryption).
Proof.
  intros Htz. unfold store_vote_data. rewrite Htz.
  eexists. split; [reflexivity|]. repeat split; reflexivity.
Qed.

(** ** Storing a vote, then listing the votes of an election *)

Lemma get_votes_by_election_run v s :
  get_votes_by_election v s = (Ok (eq_ "election_id" v (votes s)), s).
Proof.
  unfold get_votes_by_election, bind, select, ret. simpl.
  by rewrite project_star, truthy_or_empty.
Qed.

(** X5: after [store_vote_data] stores a vote with a timezone for an
    election, [get_votes_by_election] for that election returns what it
    returned before followed by the new vote, and for any other election
    it returns what it returned before. *)
Theorem stored_vote_is_listed
    cnic ballot_id election_id encryption hash_value random_factor timestamp
    off (other : Z) s :
  tzinfo timestamp = Some off ->
  other <> election_id ->
  exists old r s',
    store_vote_data cnic ballot_id election_id encryption hash_value
      random_factor timestamp s
    = (Ok {| data := [r]; status_code := 201 |}, s') /\
    get_votes_by_election (VInt election_id) s = (Ok old, s) /\
    get_votes_by_election (VInt election_id) s' = (Ok (old ++ [r])%list, s') /\
    r !! "cnic" = Some (VStr cnic) /\
    r !! "ballot_id" = Some (VInt ballot_id) /\
    r !! "encrypted_vote" = Some (VStr encryption) /\
    fst (get_votes_by_election (VInt other) s')
    = fst (get_votes_by_election (VInt other) s).
Proof.
  intros Htz Hne.
  pose proof (store_vote_data_stores cnic ballot_id election_id
                encryption hash_value random_factor timestamp off s Htz)
    as (r & Hrun & Hc & Hb & He & Hv).
  exists (eq_ "election_id" (VInt election_id) (votes s)), r,
    (tick (set_rows Votes (votes s ++ [r]) s)).
  split; [exact Hrun|].
  rewrite !get_votes_by_election_run. cbn [fst].
  split; [reflexivity|].
  assert (Hvotes : votes (tick (set_rows Votes (votes s ++ [r]) s))
                   = (votes s ++ [r])%list) by reflexivity.
  rewrite Hvotes. unfold eq_. rewrite !filter_app.
  rewrite (filter_cons_True _ r) by exact He.
  rewrite (filter_cons_False _ r) by (rewrite He; congruence).
  rewrite !filter_nil, app_nil_r. auto.
Qed.

Lemma stored_vote_is_listed_witness :
  tzinfo aware = Some "+00:00" /\
  2 <> 1 /\
  exists old r s',
    store_vote_data "12345" 7 1 "enc" "hash" "rnd" aware store_ongoing
    = (Ok {| data := [r]; status_code := 201 |}, s') /\
    get_votes_by_election (VInt 1) store_ongoing = (Ok old, store_ongoing) /\
    get_votes_by_election (VInt 1) s' = (Ok (old ++ [r])%list, s') /\
    r !! "cnic" = Some (VStr "12345") /\
    r !! "ballot_id" = Some (VInt 7) /\
    r !! "encrypted_vote" = Some (VStr "enc") /\
    fst (get_votes_by_election (VInt 2) s')
    = fst (get_votes_by_election (VInt 2) store_ongoing).
Proof.
  split; [reflexivity|]. split; [lia|].
  apply (stored_vote_is_listed "12345" 7 1 "enc" "hash" "rnd" aware "+00:00" 2
           store_ongoing); [reflexivity | lia].
Defined.

(** ** [end_election] run twice *)

Lemma end_election_run s :
  elections s <> [] ->
  numbered "id" (elections s) ->
  exists n,
    (exists e, e ∈ elections s /\ e !! "id" = Some (VInt n)) /\
    (forall r m, r ∈ elections s -> r !! "id" = Some (VInt m) -> (m <= n)%Z) /\
    end_election s
    = (Ok (OResponse
             {| data := (fun r => {[ "ongoing" := VBool false ]} ∪ r)
                          <$> eq_ "id" (VInt n) (elections s);
                status_code := 200 |}),
       set_rows Elections
         (patch_row {[ "ongoing" := VBool false ]} "id" (VInt n)
            <$> elections s) s).
Proof.
  intros Hne Hnum.
  destruct (order_desc_greatest "id" (elections s) Hne Hnum)
    as (e & t & n & Hs & He & Hn & Hmax).
  exists n. split; [by exists e|]. split; [exact Hmax|].
  unfold end_election, bind, select. simpl.
  rewrite project_star, Hs. simpl.
  unfold lift, getitem. by rewrite Hn.
Qed.

Lemma patch_row_id (patch : row) v r :
  patch !! "id" = None -> patch_row patch "id" v r !! "id" = r !! "id".
Proof.
  intros Hp. unfold patch_row. destruct (hit "id" v r); [|done].
  by rewrite lookup_union_r.
Qed.

Lemma patch_row_twice (patch : row) v r :
  patch !! "id" = None ->
  patch_row patch "id" v (patch_row patch "id" v r) = patch_row patch "id" v r.
Proof.
  intros Hp. unfold patch_row at 1. unfold hit.
  rewrite patch_row_id by done. fold (hit "id" v r).
  unfold patch_row. destruct (hit "id" v r); [|done].
  by rewrite (assoc_L (∪)), (idemp_L (∪)).
Qed.

Lemma eq_patch_row (patch : row) v (l : list row) :
  patch !! "id" = None ->
  eq_ "id" v (patch_row patch "id" v <$> l)
  = (fun r => patch ∪ r) <$> eq_ "id" v l.
Proof.
  intros Hp. unfold eq_. induction l as [|r l IH]; [done|].
  rewrite fmap_cons, !filter_cons, IH, patch_row_id by done.
  case_decide as Hr; [|done].
  rewrite fmap_cons. f_equal. unfold patch_row, hit.
  by rewrite bool_decide_eq_true_2.
Qed.

Lemma numbered_patch_row (patch : row) v (l : list row) :
  patch !! "id" = None ->
  numbered "id" l -> numbered "id" (patch_row patch "id" v <$> l).
Proof.
  intros Hp. unfold numbered. intros H. apply Forall_fmap.
  eapply Forall_impl; [exact H|]. intros r Hr. unfold compose, rank in *.
  by rewrite patch_row_id.
Qed.

(** X6: on a table whose ids are integers, a second [end_election] right
    after the first returns the same response and leaves the same store:
    closing is idempotent. *)
Theorem end_election_twice s :
  numbered "id" (elections s) ->
  end_election (snd (end_election s)) = end_election s.
Proof.
  intros Hnum.
  destruct (elections s) as [|r0 l0] eqn:El.
  { unfold end_election, bind, select. simpl. rewrite El. simpl.
    unfold ret. simpl. by rewrite El. }
  assert (Hne : elections s <> []) by (by rewrite El).
  rewrite <- El in Hnum. clear r0 l0 El.
  destruct (end_election_run s Hne Hnum) as (n & (e & He & Hn) & Hmax & Hrun).
  rewrite Hrun. cbn [snd].
  set (p := ({[ "ongoing" := VBool false ]} : row)) in *.
  assert (Hp : p !! "id" = None) by reflexivity.
  set (s1 := set_rows Elections (patch_row p "id" (VInt n) <$> elections s) s).
  assert (E1 : elections s1 = patch_row p "id" (VInt n) <$> elections s)
    by reflexivity.
  assert (Hne1 : elections s1 <> []).
  { rewrite E1. intros H. apply fmap_nil_inv in H. contradiction. }
  assert (Hnum1 : numbered "id" (elections s1)).
  { rewrite E1. by apply numbered_patch_row. }
  destruct (end_election_run s1 Hne1 Hnum1)
    as (n1 & (e1 & He1 & Hn1) & Hmax1 & Hrun1).
  assert (n1 = n) as ->.
  { rewrite E1 in He1, Hmax1.
    apply list_elem_of_fmap in He1 as (e0 & -> & He0).
    rewrite patch_row_id in Hn1 by done.
    assert (n1 <= n)%Z by eauto.
    assert (n <= n1)%Z.
    { apply (Hmax1 (patch_row p "id" (VInt n) e)).
      - apply list_elem_of_fmap. eauto.
      - by rewrite patch_row_id. }
    lia. }
  rewrite Hrun1, E1.
  rewrite eq_patch_row by done.
  rewrite <- !list_fmap_compose.
  f_equal; [do 3 f_equal|].
  - apply list_fmap_ext. intros i r _. unfold compose.
    by rewrite (assoc_L (∪)), (idemp_L (∪)).
  - unfold s1. simpl. f_equal.
    apply list_fmap_ext. intros i r _. unfold compose.
    by apply patch_row_twice.
Qed.

Lemma end_election_twice_witness :
  numbered "id" (elections store_two) /\
  end_election (snd (end_election store_two)) = end_election store_two.
Proof.
  assert (H : numbered "id" (elections store_two)).
  { unfold numbered. apply (bool_decide_unpack _). vm_compute. reflexivity. }
  split; [exact H|]. exact (end_election_twice store_two H).
Defined.

(** ** [start_election]: every way it can end *)

(** With the four fields read, the handler stores the election row, then
    the complete candidate entries, and answers by whether any candidate
    row came back. *)
Lemma start_election_run int strptime_time f s election_id num_candidates
    start_time end_time :
  f !! "election_id" ≫= int = Some election_id ->
  f !! "num_candidates" ≫= int = Some num_candidates ->
  f !! "start_time" ≫= strptime_time = Some start_time ->
  f !! "end_time" ≫= strptime_time = Some end_time ->
  exists e : row,
    e !! "id" = Some (VInt election_id) /\
    e !! "num_candidates" = Some (VInt num_candidates) /\
    e !! "ongoing" = Some (VBool true) /\
    e !! "results_visibility" = Some (VBool false) /\
    e !! "created_at" = Some (VInt (clock s)) /\
    start_election int strptime_time f s
    = (if list_truthy (expected_candidates f election_id num_candidates)
       then Ok (render_template "admin_dashboard.html"
                  [("elections", OList (elections s ++ [e]));
                   ("last_election", ODict e)])
       else Raise (UnboundLocalError "response"),
       tick (set_rows Candidates
               (candidates s ++ expected_candidates f election_id num_candidates)
               (tick (set_rows Elections (elections s ++ [e]) s)))).
Proof.
  intros H1 H2 H3 H4.
  unfold start_election, bind, lift, form_getitem, parse_int, parse_time.
  destruct (f !! "election_id") as [eid_str|]; [|discriminate]. simpl in H1.
  rewrite H1.
  destruct (f !! "num_candidates") as [nc_str|]; [|discriminate]. simpl in H2.
  rewrite H2.
  destruct (f !! "start_time") as [st_str|]; [|discriminate]. simpl in H3.
  destruct (f !! "end_time") as [et_str|]; [|discriminate]. simpl in H4.
  rewrite H3, H4.
  unfold store_election_data, store_candidate_data, bind, lift, ret, insert.
  rewrite candidate_rows_expected.
  cbn [data fst snd].
  rewrite list_fmap_singleton.
  rewrite !(server_defaults_other Candidates) by discriminate.
  match goal with
  | |- context [server_defaults Elections ?c ?r] =>
      set (e := server_defaults Elections c r)
  end.
  assert (He :
    e !! "id" = Some (VInt election_id) /\
    e !! "num_candidates" = Some (VInt num_candidates) /\
    e !! "ongoing" = Some (VBool true) /\
    e !! "results_visibility" = Some (VBool false) /\
    e !! "created_at" = Some (VInt (clock s)))
    by (repeat split; reflexivity).
  clearbody e. exists e.
  destruct He as (? & ? & ? & ? & ?). repeat split; auto.
  fold (expected_candidates f election_id num_candidates).
  destruct (expected_candidates f election_id num_candidates) as [|c cs] eqn:Ec.
  - reflexivity.
  - unfold select. simpl. rewrite project_star.
    unfold last_or_None. by rewrite last_snoc.
Qed.

Lemma start_election_parsed int strptime_time f s h s' :
  start_election int strptime_time f s = (Ok h, s') ->
  exists election_id num_candidates start_time end_time,
    f !! "election_id" ≫= int = Some election_id /\
    f !! "num_candidates" ≫= int = Some num_candidates /\
    f !! "start_time" ≫= strptime_time = Some start_time /\
    f !! "end_time" ≫= strptime_time = Some end_time.
Proof.
  unfold start_election, bind, lift, form_getitem, parse_int, parse_time.
  destruct (f !! "election_id") as [eid_str|]; [|discriminate]. simpl.
  destruct (int eid_str) as [election_id|]; [|discriminate].
  destruct (f !! "num_candidates") as [nc_str|]; [|discriminate]. simpl.
  destruct (int nc_str) as [num_candidates|]; [|discriminate].
  destruct (f !! "start_time") as [st_str|]; [|discriminate]. simpl.
  destruct (f !! "end_time") as [et_str|]; [|discriminate]. simpl.
  destruct (strptime_time st_str) as [start_time|]; [|discriminate].
  destruct (strptime_time et_str) as [end_time|]; [|discriminate].
  intros _. by exists election_id, num_candidates, start_time, end_time.
Qed.

(** X7: when the form lacks one of [election_id], [num_candidates],
    [start_time], [end_time], or one of them does not parse,
    [start_election] raises (a bad-request key error or a [ValueError]) and
    writes nothing. *)
Theorem start_election_rejected_form_writes_nothing int strptime_time f s :
  f !! "election_id" ≫= int = None \/
  f !! "num_candidates" ≫= int = None \/
  f !! "start_time" ≫= strptime_time = None \/
  f !! "end_time" ≫= strptime_time = None ->
  exists e,
    start_election int strptime_time f s = (Raise e, s) /\
    ((exists k, e = BadRequestKeyError k) \/ (exists m, e = ValueError m)).
Proof.
  intros H.
  unfold start_election, bind, lift, form_getitem, parse_int, parse_time.
  destruct (f !! "election_id") as [eid_str|]; [|by eauto 6]. simpl in *.
  destruct (int eid_str) as [election_id|]; [|by eauto 6].
  destruct (f !! "num_candidates") as [nc_str|]; [|by eauto 6]. simpl in *.
  destruct (int nc_str) as [num_candidates|]; [|by eauto 6].
  destruct (f !! "start_time") as [st_str|]; [|by eauto 6]. simpl in *.
  destruct (f !! "end_time") as [et_str|]; [|by eauto 6]. simpl in *.
  destruct (strptime_time st_str) as [start_time|]; [|by eauto 6].
  destruct (strptime_time et_str) as [end_time|]; [|by eauto 6].
  destruct H as [H|[H|[H|H]]]; discriminate.
Qed.

Lemma start_election_rejected_form_writes_nothing_witness :
  (form_AB "two" !! "election_id" ≫= int_of_decimal = None \/
   form_AB "two" !! "num_candidates" ≫= int_of_decimal = None \/
   form_AB "two" !! "start_time" ≫= time_of_stamp = None \/
   form_AB "two" !! "end_time" ≫= time_of_stamp = None) /\
  exists e,
    start_election int_of_decimal time_of_stamp (form_AB "two") store_ongoing
    = (Raise e, store_ongoing) /\
    ((exists k, e = BadRequestKeyError k) \/ (exists m, e = ValueError m)).
Proof.
  assert (H : form_AB "two" !! "election_id" ≫= int_of_decimal = None \/
              form_AB "two" !! "num_candidates" ≫= int_of_decimal = None \/
              form_AB "two" !! "start_time" ≫= time_of_stamp = None \/
              form_AB "two" !! "end_time" ≫= time_of_stamp = None)
    by (left; vm_compute; reflexivity).
  split; [exact H|].
  exact (start_election_rejected_form_writes_nothing
           int_of_decimal time_of_stamp (form_AB "two") store_ongoing H).
Defined.

Lemma no_complete_entry f election_id num_candidates :
  (forall i, (1 <= i <= num_candidates)%Z -> ~ complete f i) ->
  expected_candidates f election_id num_candidates = [].
Proof.
  intros H. unfold expected_candidates.
  assert (E : filter (complete f) (seqZ 1 num_candidates) = []).
  { destruct (filter (complete f) (seqZ 1 num_candidates)) as [|i l] eqn:E;
      [done|].
    assert (Hi : i ∈ filter (complete f) (seqZ 1 num_candidates))
      by (rewrite E; by left).
    apply list_elem_of_filter in Hi as [Hc Hi].
    apply elem_of_seqZ in Hi. destruct (H i); [lia | done]. }
  by rewrite E.
Qed.

(** X8: when the form parses but none of its candidate entries has both
    a name and a symbol, [start_election] still stores the election row,
    ongoing, stores no candidate row, and raises instead of answering. *)
Theorem start_election_without_candidates
    int strptime_time f s election_id num_candidates start_time end_time :
  f !! "election_id" ≫= int = Some election_id ->
  f !! "num_candidates" ≫= int = Some num_candidates ->
  f !! "start_time" ≫= strptime_time = Some start_time ->
  f !! "end_time" ≫= strptime_time = Some end_time ->
  (forall i, (1 <= i <= num_candidates)%Z -> ~ complete f i) ->
  exists (e : row) s',
    start_election int strptime_time f s
    = (Raise (UnboundLocalError "response"), s') /\
    elections s' = (elections s ++ [e])%list /\
    e !! "id" = Some (VInt election_id) /\
    e !! "ongoing" = Some (VBool true) /\
    candidates s' = candidates s /\
    votes s' = votes s.
Proof.
  intros H1 H2 H3 H4 Hnone.
  destruct (start_election_run int strptime_time f s _ _ _ _ H1 H2 H3 H4)
    as (e & Hid & _ & Ho & _ & _ & Hrun).
  rewrite (no_complete_entry _ _ _ Hnone) in Hrun. simpl in Hrun.
  eexists e, _. split; [exact Hrun|].
  repeat split; auto. simpl. by rewrite app_nil_r.
Qed.

Lemma start_election_without_candidates_witness :
  form_blank "3" !! "election_id" ≫= int_of_decimal = Some 3 /\
  form_blank "3" !! "num_candidates" ≫= int_of_decimal = Some 1 /\
  form_blank "3" !! "start_time" ≫= time_of_stamp
    = Some {| hour := 9; minute := 0 |} /\
  form_blank "3" !! "end_time" ≫= time_of_stamp
    = Some {| hour := 17; minute := 0 |} /\
  (forall i, (1 <= i <= 1)%Z -> ~ complete (form_blank "3") i) /\
  exists (e : row) s',
    start_election int_of_decimal time_of_stamp (form_blank "3") store_closed
    = (Raise (UnboundLocalError "response"), s') /\
    elections s' = (elections store_closed ++ [e])%list /\
    e !! "id" = Some (VInt 3) /\
    e !! "ongoing" = Some (VBool true) /\
    candidates s' = candidates store_closed /\
    votes s' = votes store_closed.
Proof.
  assert (H1 : form_blank "3" !! "election_id" ≫= int_of_decimal = Some 3)
    by (vm_compute; reflexivity).
  assert (H2 : form_blank "3" !! "num_candidates" ≫= int_of_decimal = Some 1)
    by (vm_compute; reflexivity).
  assert (H3 : form_blank "3" !! "start_time" ≫= time_of_stamp
               = Some {| hour := 9; minute := 0 |})
    by (vm_compute; reflexivity).
  assert (H4 : form_blank "3" !! "end_time" ≫= time_of_stamp
               = Some {| hour := 17; minute := 0 |})
    by (vm_compute; reflexivity).
  assert (H5 : forall i, (1 <= i <= 1)%Z -> ~ complete (form_blank "3") i).
  { intros i Hi. assert (i = 1) as -> by lia.
    intros [_ Hs]. vm_compute in Hs. exact Hs. }
  repeat (split; [assumption|]).
  exact (start_election_without_candidates int_of_decimal time_of_stamp
           (form_blank "3") store_closed 3 1 _ _ H1 H2 H3 H4 H5).
Defined.

(** X9: when [start_election] answers with its page, at least one
    candidate row was added and at most as many as the [num_candidates]
    the form gave, which is the number the new election row stores. *)
Theorem start_election_candidate_count int strptime_time f s h s' :
  start_election int strptime_time f s = (Ok h, s') ->
  exists (num_candidates : Z) (e : row),
    f !! "num_candidates" ≫= int = Some num_candidates /\
    last (elections s') = Some e /\
    e !! "num_candidates" = Some (VInt num_candidates) /\
    (length (candidates s) < length (candidates s'))%nat /\
    (Z.of_nat (length (candidates s')) - Z.of_nat (length (candidates s))
     <= num_candidates)%Z.
Proof.
  intros Hrun.
  destruct (start_election_parsed _ _ _ _ _ _ Hrun)
    as (eid & nc & t1 & t2 & H1 & H2 & H3 & H4).
  destruct (start_election_run int strptime_time f s _ _ _ _ H1 H2 H3 H4)
    as (e & _ & Hn & _ & _ & _ & Hrun').
  rewrite Hrun in Hrun'. clear Hrun.
  destruct (expected_candidates f eid nc) as [|c cs] eqn:Ec;
    simpl in Hrun'; [discriminate|].
  injection Hrun' as _ ->.
  exists nc, e. split; [exact H2|]. simpl. rewrite last_snoc.
  split; [done|]. split; [exact Hn|].
  rewrite length_app. simpl.
  assert (Hlen : (length (c :: cs) <= Z.to_nat nc)%nat).
  { rewrite <- Ec. unfold expected_candidates.
    rewrite length_fmap, <- (length_seqZ 1 nc). apply length_filter. }
  simpl in Hlen. split; lia.
Qed.

Lemma start_election_candidate_count_witness :
  exists (num_candidates : Z) (e : row),
    form_AB "1" !! "num_candidates" ≫= int_of_decimal = Some num_candidates /\
    last (elections store_ongoing) = Some e /\
    e !! "num_candidates" = Some (VInt num_candidates) /\
    (length (candidates empty_store) < length (candidates store_ongoing))%nat /\
    (Z.of_nat (length (candidates store_ongoing))
       - Z.of_nat (length (candidates empty_store))
     <= num_candidates)%Z.
Proof.
  refine (start_election_candidate_count
            int_of_decimal time_of_stamp (form_AB "1") empty_store
            (render_template "admin_dashboard.html"
               [("elections", OList (elections store_ongoing));
                ("last_election", last_or_None (elections store_ongoing))])
            store_ongoing _).
  vm_compute. reflexivity.
Defined.

(** ** Administrator login *)

Lemma list_truthy_fmap {A B} (g : A -> B) (l : list A) :
  list_truthy (g <$> l) = list_truthy l.
Proof. by destruct l. Qed.

Lemma check_admin_username_run username s :
  check_admin_username username s
  = (Ok (list_truthy (eq_ "username" (VStr username) (admins s))), s).
Proof.
  unfold check_admin_username, bind, select, ret. simpl.
  by rewrite list_truthy_fmap.
Qed.

(** The password check reads the first row stored under the name. *)
Lemma check_admin_password_run username password s :
  check_admin_password username password s
  = (match eq_ "username" (VStr username) (admins s) with
     | [] => Ok false
     | r :: _ =>
         match r !! "password" with
         | Some stored => Ok (bool_decide (stored = VStr password))
         | None => Raise (KeyError "password")
         end
     end, s).
Proof.
  unfold check_admin_password, bind, select, ret. simpl.
  destruct (eq_ "username" (VStr username) (admins s)) as [|r l];
    [reflexivity|].
  simpl. unfold lift, getitem.
  destruct (r !! "password") as [stored|].
  - by rewrite lookup_singleton_eq.
  - by rewrite lookup_empty.
Qed.

(** What a POST with both fields gets. *)
Lemma admin_login_run f s username password :
  f !! "username" = Some username ->
  f !! "password" = Some password ->
  admin_login "POST" f s
  = (match eq_ "username" (VStr username) (admins s) with
     | [] => Ok (body_status "Invalid credentials" 401)
     | r :: _ =>
         match r !! "password" with
         | Some stored =>
             Ok (if decide (stored = VStr password)
                 then render_template "admin_dashboard.html"
                        [("elections", OList (elections s));
                         ("last_election", last_or_None (elections s))]
                 else body_status "Invalid credentials" 401)
         | None => Raise (KeyError "password")
         end
     end, s).
Proof.
  intros Hu Hp. unfold admin_login. simpl.
  unfold bind at 1. unfold lift at 1, form_getitem at 1. rewrite Hu.
  unfold bind at 1. unfold lift at 1, form_getitem at 1. rewrite Hp.
  unfold bind at 1. rewrite check_admin_username_run.
  destruct (eq_ "username" (VStr username) (admins s)) as [|r l] eqn:E;
    [reflexivity|].
  cbn [list_truthy]. unfold bind at 1.
  rewrite check_admin_password_run, E.
  destruct (r !! "password") as [stored|]; [|reflexivity].
  case_bool_decide as Hd.
  - rewrite decide_True by done.
    unfold bind, select, ret. simpl. by rewrite project_star.
  - by rewrite decide_False.
Qed.

(** X10: [admin_login] shows the dashboard only on a POST whose username
    and password are those of a stored admin row, and it leaves the store
    as it was. *)
Theorem admin_login_needs_stored_credentials method f s context s' :
  admin_login method f s
  = (Ok (render_template "admin_dashboard.html" context), s') ->
  s' = s /\
  method = "POST" /\
  exists username password r,
    f !! "username" = Some username /\
    f !! "password" = Some password /\
    r ∈ admins s /\
    r !! "username" = Some (VStr username) /\
    r !! "password" = Some (VStr password).
Proof.
  intros H.
  destruct (String.eqb method "POST") eqn:Em.
  2:{ unfold admin_login in H. rewrite Em in H. discriminate. }
  apply String.eqb_eq in Em as ->.
  destruct (f !! "username") as [username|] eqn:Hu.
  2:{ unfold admin_login, bind, lift, form_getitem in H. simpl in H.
      rewrite Hu in H. discriminate. }
  destruct (f !! "password") as [password|] eqn:Hp.
  2:{ unfold admin_login, bind, lift, form_getitem in H. simpl in H.
      rewrite Hu, Hp in H. discriminate. }
  rewrite (admin_login_run f s username password Hu Hp) in H.
  destruct (eq_ "username" (VStr username) (admins s)) as [|r l] eqn:E;
    [discriminate|].
  assert (Hr : r ∈ eq_ "username" (VStr username) (admins s))
    by (rewrite E; by left).
  apply elem_of_eq_ in Hr as [Hname Hr].
  destruct (r !! "password") as [stored|] eqn:Hs; [|discriminate].
  destruct (decide (stored = VStr password)) as [->|]; [|discriminate].
  injection H as _ <-.
  split; [done|]. split; [done|]. by exists username, password, r.
Qed.

Lemma admin_login_needs_stored_credentials_witness :
  admin_login "POST" (login_form "ada" "lovelace") store_admins
  = (Ok (render_template "admin_dashboard.html"
           [("elections", OList (elections store_admins));
            ("last_election", last_or_None (elections store_admins))]),
     store_admins) /\
  store_admins = store_admins /\
  "POST" = "POST" /\
  exists username password r,
    login_form "ada" "lovelace" !! "username" = Some username /\
    login_form "ada" "lovelace" !! "password" = Some password /\
    r ∈ admins store_admins /\
    r !! "username" = Some (VStr username) /\
    r !! "password" = Some (VStr password).
Proof.
  assert (H : admin_login "POST" (login_form "ada" "lovelace") store_admins
    = (Ok (render_template "admin_dashboard.html"
             [("elections", OList (elections store_admins));
              ("last_election", last_or_None (elections store_admins))]),
       store_admins)) by (vm_compute; reflexivity).
  split; [exact H|].
  exact (admin_login_needs_stored_credentials _ _ _ _ _ H).
Defined.

(** X11: on a POST with both fields, [admin_login] decides by the first
    admin row stored under the username: no such row gives 401, and
    otherwise the dashboard is shown exactly when that first row's
    password equals the submitted one, whatever later rows of the same
    name hold. *)
Theorem admin_login_first_row_decides f s username password :
  f !! "username" = Some username ->
  f !! "password" = Some password ->
  Forall (fun r => is_Some (r !! "password")) (admins s) ->
  match head (eq_ "username" (VStr username) (admins s)) with
  | None =>
      admin_login "POST" f s = (Ok (body_status "Invalid credentials" 401), s)
  | Some r =>
      r ∈ admins s /\
      if decide (r !! "password" = Some (VStr password))
      then admin_login "POST" f s
           = (Ok (render_template "admin_dashboard.html"
                    [("elections", OList (elections s));
                     ("last_election", last_or_None (elections s))]), s)
      else admin_login "POST" f s
           = (Ok (body_status "Invalid credentials" 401), s)
  end.
Proof.
  intros Hu Hp Hall. rewrite (admin_login_run f s username password Hu Hp).
  destruct (eq_ "username" (VStr username) (admins s)) as [|r l] eqn:E;
    [reflexivity|].
  assert (Hr : r ∈ eq_ "username" (VStr username) (admins s))
    by (rewrite E; by left).
  apply elem_of_eq_ in Hr as [_ Hr]. simpl. split; [exact Hr|].
  rewrite Forall_forall in Hall. destruct (Hall r Hr) as [stored Hs].
  rewrite Hs.
  destruct (decide (stored = VStr password)) as [->|Hne].
  - by rewrite decide_True.
  - rewrite decide_False; [done | congruence].
Qed.

(** The name root is stored twice: the second row's password is refused. *)
Lemma admin_login_first_row_decides_witness :
  login_form "root" "second" !! "username" = Some "root" /\
  login_form "root" "second" !! "password" = Some "second" /\
  Forall (fun r => is_Some (r !! "password")) (admins store_admins) /\
  match head (eq_ "username" (VStr "root") (admins store_admins)) with
  | None =>
      admin_login "POST" (login_form "root" "second") store_admins
      = (Ok (body_status "Invalid credentials" 401), store_admins)
  | Some r =>
      r ∈ admins store_admins /\
      if decide (r !! "password" = Some (VStr "second"))
      then admin_login "POST" (login_form "root" "second") store_admins
           = (Ok (render_template "admin_dashboard.html"
                    [("elections", OList (elections store_admins));
                     ("last_election", last_or_None (elections store_admins))]),
              store_admins)
      else admin_login "POST" (login_form "root" "second") store_admins
           = (Ok (body_status "Invalid credentials" 401), store_admins)
  end.
Proof.
  assert (H1 : login_form "root" "second" !! "username" = Some "root")
    by (vm_compute; reflexivity).
  assert (H2 : login_form "root" "second" !! "password" = Some "second")
    by (vm_compute; reflexivity).
  assert (H3 : Forall (fun r => is_Some (r !! "password")) (admins store_admins)).
  { apply (bool_decide_unpack _). vm_compute. reflexivity. }
  repeat (split; [assumption|]).
  exact (admin_login_first_row_decides _ store_admins "root" "second" H1 H2 H3).
Defined.

Example admin_login_duplicate_name :
  fst (admin_login "POST" (login_form "root" "first") store_admins)
  = Ok (render_template "admin_dashboard.html"
          [("elections", OList (elections store_admins));
           ("last_election", last_or_None (elections store_admins))])
  /\ fst (admin_login "POST" (login_form "root" "second") store_admins)
     = Ok (body_status "Invalid credentials" 401)
  /\ fst (admin_login "POST" (login_form "eve" "first") store_admins)
     = Ok (body_status "Invalid credentials" 401)
  /\ fst (admin_login "GET" ∅ store_admins)
     = Ok (render_template "login.html" []).
Proof. repeat split; vm_compute; reflexivity. Qed.

(** ** The list of past elections *)

Lemma place_perm col r l : place col r l ≡ₚ r :: l.
Proof.
  induction l as [|r' l IH]; simpl; [done|].
  destruct (follows (rank col r') (rank col r)); [done|].
  rewrite IH. apply Permutation_swap.
Qed.

Lemma order_desc_perm col l : order_desc col l ≡ₚ l.
Proof.
  induction l as [|r l IH]; [done|].
  change (order_desc col (r :: l)) with (place col r (order_desc col l)).
  by rewrite place_perm, IH.
Qed.

Lemma place_newest_first col r l :
  newest_first col l -> newest_first col (place col r l).
Proof.
  unfold newest_first. induction 1 as [|r' l Hs IH Hall]; simpl.
  - repeat constructor.
  - destruct (follows (rank col r') (rank col r)) eqn:E.
    + constructor; [by constructor|].
      constructor; [exact E|].
      eapply Forall_impl; [exact Hall|]. intros x Hx. simpl in *.
      eauto using follows_trans.
    + constructor; [exact IH|].
      apply Forall_forall. intros x Hx. apply elem_of_place in Hx as [->|Hx].
      * by apply follows_total.
      * rewrite Forall_forall in Hall. auto.
Qed.

Lemma order_desc_newest_first col l : newest_first col (order_desc col l).
Proof.
  induction l as [|r l IH]; [constructor|].
  change (order_desc col (r :: l)) with (place col r (order_desc col l)).
  by apply place_newest_first.
Qed.

Lemma mapM_names (l : list row) :
  Forall (fun c => is_Some (c !! "name")) l ->
  mapM (fun candidate => getitem candidate "name") (project (Col "name") <$> l)
  = Ok (omap (fun c => c !! "name") l).
Proof.
  induction 1 as [|c l [n Hn] _ IH]; [reflexivity|].
  rewrite fmap_cons, mapM_cons, IH. cbn [project omap list_omap].
  rewrite Hn. unfold getitem. by rewrite lookup_singleton_eq.
Qed.

(** The names the loop collects for one election. *)
Lemma candidate_names_run election v s :
  election !! "id" = Some v ->
  Forall (fun c => is_Some (c !! "name")) (candidates s) ->
  candidate_names election s
  = (Ok (omap (fun c => c !! "name") (eq_ "election_id" v (candidates s))), s).
Proof.
  intros Hid Hnames.
  unfold candidate_names, bind, select. unfold lift at 1, getitem at 1.
  rewrite Hid. simpl. unfold lift. rewrite mapM_names; [done|].
  apply Forall_forall. intros c Hc. apply elem_of_eq_ in Hc as [_ Hc].
  rewrite Forall_forall in Hnames. auto.
Qed.

Lemma with_candidates_run (l : list row) s :
  Forall (fun e => is_Some (e !! "id")) l ->
  Forall (fun c => is_Some (c !! "name")) (candidates s) ->
  exists listed,
    with_candidates l s = (Ok listed, s) /\
    fst <$> listed = l /\
    Forall (fun en =>
              exists v, en.1 !! "id" = Some v /\
                en.2 = omap (fun c => c !! "name")
                         (eq_ "election_id" v (candidates s))) listed.
Proof.
  intros Hl Hc. induction Hl as [|e l [v Hv] _ (listed & IH & Hfst & Hall)].
  - exists []. by repeat split.
  - exists ((e, omap (fun c => c !! "name")
                 (eq_ "election_id" v (candidates s))) :: listed).
    split; [|split].
    + cbn [with_candidates]. unfold bind at 1.
      rewrite (candidate_names_run e v s Hv Hc).
      unfold bind at 1. rewrite IH. reflexivity.
    + rewrite fmap_cons. simpl. by rewrite Hfst.
    + constructor; [|exact Hall]. by exists v.
Qed.

(** X12: when every election row has an id and every candidate row a
    name, [view_prev_elections] lists each stored election exactly once,
    in descending order of [created_at], each with the names of the
    candidate rows stored under its id, and it changes nothing. *)
Theorem view_prev_elections_lists_all s :
  Forall (fun e => is_Some (e !! "id")) (elections s) ->
  Forall (fun c => is_Some (c !! "name")) (candidates s) ->
  exists listed,
    view_prev_elections s = (Ok ("prev_elections.html", listed), s) /\
    fst <$> listed ≡ₚ elections s /\
    newest_first "created_at" (fst <$> listed) /\
    Forall (fun en =>
              exists v, en.1 !! "id" = Some v /\
                en.2 = omap (fun c => c !! "name")
                         (eq_ "election_id" v (candidates s))) listed.
Proof.
  intros He Hc.
  assert (He' : Forall (fun e => is_Some (e !! "id"))
                  (order_desc "created_at" (elections s))).
  { apply Forall_forall. intros e Hin. apply elem_of_order_desc in Hin.
    rewrite Forall_forall in He. auto. }
  destruct (with_candidates_run _ s He' Hc) as (listed & Hrun & Hfst & Hall).
  exists listed. split; [|split; [|split]].
  - unfold view_prev_elections, bind, select, ret. simpl.
    rewrite project_star, Hrun. reflexivity.
  - rewrite Hfst. apply order_desc_perm.
  - rewrite Hfst. apply order_desc_newest_first.
  - exact Hall.
Qed.

Lemma view_prev_elections_lists_all_witness :
  Forall (fun e => is_Some (e !! "id")) (elections store_two) /\
  Forall (fun c => is_Some (c !! "name")) (candidates store_two) /\
  exists listed,
    view_prev_elections store_two
    = (Ok ("prev_elections.html", listed), store_two) /\
    fst <$> listed ≡ₚ elections store_two /\
    newest_first "created_at" (fst <$> listed) /\
    Forall (fun en =>
              exists v, en.1 !! "id" = Some v /\
                en.2 = omap (fun c => c !! "name")
                         (eq_ "election_id" v (candidates store_two))) listed.
Proof.
  assert (H1 : Forall (fun e => is_Some (e !! "id")) (elections store_two)).
  { apply (bool_decide_unpack _). vm_compute. reflexivity. }
  assert (H2 : Forall (fun c => is_Some (c !! "name")) (candidates store_two)).
  { apply (bool_decide_unpack _). vm_compute. reflexivity. }
  split; [exact H1|]. split; [exact H2|].
  exact (view_prev_elections_lists_all store_two H1 H2).
Defined.

Example view_prev_elections_demo :
  (fun r => match r with
            | Ok (_, listed) =>
                (fun en : row * list value => (en.1 !! "id", en.2)) <$> listed
            | Raise _ => []
            end) (fst (view_prev_elections store_two))
  = [(Some (VInt 2), [VStr "A"; VStr "B"]);
     (Some (VInt 1), [VStr "A"; VStr "B"])].
Proof. vm_compute. reflexivity. Qed.

Lemma expected_candidate_fields f election_id i :
  expected_candidate f election_id i !! "election_id" = Some (VInt election_id) /\
  expected_candidate f election_id i !! "name"
  = Some (opt_str (f !! ("candidate_name_" +:+ pretty i))).
Proof. split; reflexivity. Qed.

Lemma eq_expected_candidates f election_id (l : list Z) :
  eq_ "election_id" (VInt election_id) (expected_candidate f election_id <$> l)
  = expected_candidate f election_id <$> l.
Proof.
  unfold eq_. induction l as [|i l IH]; [done|].
  rewrite fmap_cons, filter_cons_True, IH; [done|].
  apply expected_candidate_fields.
Qed.

Lemma names_expected_candidates f election_id (l : list Z) :
  omap (fun c : row => c !! "name") (expected_candidate f election_id <$> l)
  = (fun i => opt_str (f !! ("candidate_name_" +:+ pretty i))) <$> l.
Proof.
  induction l as [|i l IH]; [done|].
  rewrite !fmap_cons. cbn [omap list_omap].
  rewrite (proj2 (expected_candidate_fields f election_id i)).
  fold (omap (fun c : row => c !! "name")
          (expected_candidate f election_id <$> l)).
  by rewrite IH.
Qed.

(** X13: after [start_election] answers with its page for an election id
    under which no candidate row was stored before, [view_prev_elections]
    lists the new election, ongoing, with exactly the names of the entries
    of the form that have both a name and a symbol, in the order of the
    form. *)
Theorem started_election_is_listed int strptime_time f s h s' election_id :
  start_election int strptime_time f s = (Ok h, s') ->
  f !! "election_id" ≫= int = Some election_id ->
  Forall (fun e => is_Some (e !! "id")) (elections s) ->
  Forall (fun c => is_Some (c !! "name")) (candidates s) ->
  Forall (fun c => c !! "election_id" <> Some (VInt election_id)) (candidates s) ->
  exists (num_candidates : Z) listed (e : row),
    f !! "num_candidates" ≫= int = Some num_candidates /\
    view_prev_elections s' = (Ok ("prev_elections.html", listed), s') /\
    (e, (fun i => opt_str (f !! ("candidate_name_" +:+ pretty i)))
          <$> filter (complete f) (seqZ 1 num_candidates)) ∈ listed /\
    e !! "id" = Some (VInt election_id) /\
    e !! "ongoing" = Some (VBool true).
Proof.
  intros Hrun Hid He Hc Hfresh.
  destruct (start_election_parsed _ _ _ _ _ _ Hrun)
    as (eid & nc & t1 & t2 & H1 & H2 & H3 & H4).
  assert (eid = election_id) as -> by congruence.
  destruct (start_election_run int strptime_time f s _ _ _ _ H1 H2 H3 H4)
    as (e & Heid & _ & Ho & _ & _ & Hrun').
  rewrite Hrun in Hrun'. clear Hrun.
  destruct (list_truthy (expected_candidates f election_id nc));
    [|discriminate].
  injection Hrun' as _ ->.
  match goal with
  | |- context [view_prev_elections ?st] => set (s1 := st)
  end.
  assert (E1 : elections s1 = (elections s ++ [e])%list) by reflexivity.
  assert (C1 : candidates s1
               = (candidates s ++ expected_candidates f election_id nc)%list)
    by reflexivity.
  clearbody s1.
  assert (He1 : Forall (fun e => is_Some (e !! "id"))
                  (order_desc "created_at" (elections s1))).
  { apply Forall_forall. intros x Hx. apply elem_of_order_desc in Hx.
    rewrite E1 in Hx. apply elem_of_app in Hx as [Hx|Hx].
    - rewrite Forall_forall in He. auto.
    - apply list_elem_of_singleton in Hx as ->. by rewrite Heid. }
  assert (Hc1 : Forall (fun c => is_Some (c !! "name")) (candidates s1)).
  { rewrite C1. apply Forall_app. split; [exact Hc|].
    unfold expected_candidates. apply Forall_fmap, Forall_forall.
    intros i _. unfold compose.
    by rewrite (proj2 (expected_candidate_fields f election_id i)). }
  destruct (with_candidates_run _ s1 He1 Hc1) as (listed & Hw & Hfst & Hall).
  exists nc, listed, e. split; [exact H2|]. split; [|split; [|by split]].
  - unfold view_prev_elections, bind, select, ret. simpl.
    by rewrite project_star, Hw.
  - assert (Hin : e ∈ fst <$> listed).
    { rewrite Hfst. apply elem_of_order_desc. rewrite E1.
      apply elem_of_app. right. by left. }
    apply list_elem_of_fmap in Hin as ([e' names] & Hfe & Hin).
    simpl in Hfe. subst e'.
    rewrite Forall_forall in Hall.
    destruct (Hall _ Hin) as (v & Hv & Hnames). simpl in Hv, Hnames.
    assert (v = VInt election_id) as -> by congruence.
    rewrite C1 in Hnames. unfold eq_ in Hnames.
    rewrite filter_app in Hnames.
    fold (eq_ "election_id" (VInt election_id) (candidates s)) in Hnames.
    fold (eq_ "election_id" (VInt election_id)
            (expected_candidates f election_id nc)) in Hnames.
    rewrite (proj2 (eq_nil_iff _ _ (candidates s))) in Hnames.
    2:{ intros r Hr. rewrite Forall_forall in Hfresh. auto. }
    unfold expected_candidates in Hnames.
    rewrite eq_expected_candidates, app_nil_l, names_expected_candidates
      in Hnames.
    by rewrite <- Hnames.
Qed.

Lemma started_election_is_listed_witness :
  start_election int_of_decimal time_of_stamp (form_AB "2") store_closed
  = (Ok (render_template "admin_dashboard.html"
           [("elections", OList (elections store_two));
            ("last_election", last_or_None (elections store_two))]),
     store_two) /\
  form_AB "2" !! "election_id" ≫= int_of_decimal = Some 2 /\
  Forall (fun e => is_Some (e !! "id")) (elections store_closed) /\
  Forall (fun c => is_Some (c !! "name")) (candidates store_closed) /\
  Forall (fun c => c !! "election_id" <> Some (VInt 2)) (candidates store_closed) /\
  exists (num_candidates : Z) listed (e : row),
    form_AB "2" !! "num_candidates" ≫= int_of_decimal = Some num_candidates /\
    view_prev_elections store_two
    = (Ok ("prev_elections.html", listed), store_two) /\
    (e, (fun i => opt_str (form_AB "2" !! ("candidate_name_" +:+ pretty i)))
          <$> filter (complete (form_AB "2")) (seqZ 1 num_candidates))
      ∈ listed /\
    e !! "id" = Some (VInt 2) /\
    e !! "ongoing" = Some (VBool true).
Proof.
  assert (H0 : start_election int_of_decimal time_of_stamp (form_AB "2")
                 store_closed
    = (Ok (render_template "admin_dashboard.html"
             [("elections", OList (elections store_two));
              ("last_election", last_or_None (elections store_two))]),
       store_two)) by (vm_compute; reflexivity).
  assert (H1 : form_AB "2" !! "election_id" ≫= int_of_decimal = Some 2)
    by (vm_compute; reflexivity).
  assert (H2 : Forall (fun e => is_Some (e !! "id")) (elections store_closed)).
  { apply (bool_decide_unpack _). vm_compute. reflexivity. }
  assert (H3 : Forall (fun c => is_Some (c !! "name")) (candidates store_closed)).
  { apply (bool_decide_unpack _). vm_compute. reflexivity. }
  assert (H4 : Forall (fun c => c !! "election_id" <> Some (VInt 2))
                 (candidates store_closed)).
  { apply (bool_decide_unpack _). vm_compute. reflexivity. }
  repeat (split; [assumption|]).
  exact (started_election_is_listed int_of_decimal time_of_stamp (form_AB "2")
           store_closed _ store_two 2 H0 H1 H2 H3 H4).
Defined.

(** ** Voter login and results page *)

Lemma bind_ok {A B} (c : M A) (k : A -> M B) s a s' :
  c s = (Ok a, s') -> bind c k s = k a s'.
Proof. unfold bind. by intros ->. Qed.

Lemma bind_raise {A B} (c : M A) (k : A -> M B) s e s' :
  c s = (Raise e, s') -> bind c k s = (Raise e, s').
Proof. unfold bind. by intros ->. Qed.

Lemma retrieve_last_election_dict s :
  exists d,
    retrieve_last_election s = (Ok (ODict d), s) /\
    (d = not_found_marker \/ d ∈ elections s).
Proof.
  unfold retrieve_last_election, bind, select. cbn [data rows_of].
  rewrite project_star.
  destruct (limit 1 (order_desc "created_at" (elections s))) as [|r l] eqn:E.
  - exists not_found_marker. split; [reflexivity | by left].
  - exists r. split; [reflexivity|]. right.
    apply (elem_of_order_desc "created_at").
    assert (Hr : r ∈ limit 1 (order_desc "created_at" (elections s)))
      by (rewrite E; by left).
    by apply subseteq_take in Hr.
Qed.

(** X14: every POST to [voter_login] raises and writes nothing: a
    bad-request key error when the form has no [cnic], and otherwise
    [AttributeError], because [retrieve_last_election] hands back a dict,
    which has no [data]. *)
Theorem voter_login_post_always_raises f s :
  exists e,
    voter_login "POST" f s = (Raise e, s) /\
    (e = BadRequestKeyError "cnic" \/ e = AttributeError "data").
Proof.
  unfold voter_login. cbn [String.eqb Ascii.eqb Bool.eqb].
  unfold form_getitem.
  destruct (f !! "cnic") as [cnic|]; [|by eauto].
  rewrite (bind_ok (lift (Ok cnic)) _ s cnic s eq_refl).
  destruct (retrieve_last_election_dict s) as (d & Hd & _).
  rewrite (bind_ok _ _ _ _ _ Hd).
  rewrite (bind_raise (lift (getattr_data (ODict d))) _ s
             (AttributeError "data") s eq_refl).
  eauto.
Qed.

(** X15: when no election row is the empty dict, [results] never shows
    the results page nor its 403: it raises [AttributeError] on
    [decrypted_tally], with elections and without, and writes nothing. *)
Theorem results_always_raises s :
  Forall (fun r => r <> ∅) (elections s) ->
  results s = (Raise (AttributeError "decrypted_tally"), s).
Proof.
  intros Hne. unfold results, bind.
  destruct (retrieve_last_election_dict s) as (d & -> & Hd).
  assert (Ht : obj_truthy (ODict d) = true).
  { simpl. unfold dict_truthy. rewrite bool_decide_eq_false_2; [done|].
    destruct Hd as [->|Hd]; [done|].
    rewrite Forall_forall in Hne. auto. }
  by rewrite Ht.
Qed.

Lemma results_always_raises_witness :
  Forall (fun r => r <> ∅) (elections store_two) /\
  results store_two = (Raise (AttributeError "decrypted_tally"), store_two).
Proof.
  assert (H : Forall (fun r => r <> ∅) (elections store_two)).
  { apply (bool_decide_unpack _). vm_compute. reflexivity. }
  split; [exact H|]. exact (results_always_raises store_two H).
Defined.

Example results_on_empty_table :
  results empty_store = (Raise (AttributeError "decrypted_tally"), empty_store).
Proof. vm_compute. reflexivity. Qed.

(** ** Results never become visible *)

Lemma none_visible_ext s s' :
  elections s' = elections s -> none_visible s -> none_visible s'.
Proof. unfold none_visible. by intros ->. Qed.

Lemma serve_keeps_hidden int strptime_time q s :
  none_visible s /\ keyed_by_id s ->
  none_visible (serve int strptime_time q s) /\
  keyed_by_id (serve int strptime_time q s).
Proof.
  intros [Hn Hk].
  destruct q as [f| |eid status|cnic b e enc h rf ts]; cbn [serve].
  - destruct (start_election_elections int strptime_time f s)
      as [E|(e & E & Ho & Hv & He)].
    + eauto using none_visible_ext, keyed_by_id_ext.
    + unfold none_visible, keyed_by_id in *. rewrite E.
      split; apply Forall_app; (split; [done|]); apply Forall_singleton;
        [congruence | done].
  - rewrite end_election_handler_store.
    destruct (end_election_elections s) as [E|[v E]].
    + eauto using none_visible_ext, keyed_by_id_ext.
    + unfold none_visible, keyed_by_id in *. rewrite E.
      split; apply Forall_fmap.
      * eapply Forall_impl; [exact Hn|]. intros r Hr. unfold compose.
        destruct (patch_row_close "id" v r) as [-> | ->]; [done|].
        by rewrite lookup_insert_ne.
      * eapply Forall_impl; [exact Hk|]. intros r Hr. unfold compose.
        destruct (patch_row_close "id" v r) as [-> | ->]; [done|].
        by rewrite lookup_insert_ne.
  - rewrite update_result_visibility_misses by done. by split.
  - split.
    + eapply none_visible_ext; [apply store_vote_data_elections|done].
    + eapply keyed_by_id_ext; [apply store_vote_data_elections|done].
Qed.

(** X16: starting from a store where no election is visible and election
    rows carry their number under [id] (the empty store is one), no
    sequence of requests makes any election's results visible, and
    [search_encryptions] answers "No visible results" in every state
    reached. *)
Theorem results_never_become_visible int strptime_time s0 s :
  none_visible s0 ->
  keyed_by_id s0 ->
  reachable int strptime_time s0 s ->
  none_visible s /\
  search_encryptions s = (Ok (body_status "No visible results" 403), s).
Proof.
  intros Hn Hk Hreach.
  assert (Hinv : none_visible s /\ keyed_by_id s).
  { induction Hreach; auto using serve_keeps_hidden. }
  destruct Hinv as [Hn' _]. split; [exact Hn'|].
  pose proof (search_encryptions_first_visible s) as Hs.
  rewrite (proj2 (eq_nil_iff _ _ (elections s))) in Hs; [exact Hs|].
  intros r Hr. unfold none_visible in Hn'. rewrite Forall_forall in Hn'. auto.
Qed.

Lemma results_never_become_visible_witness :
  none_visible empty_store /\
  keyed_by_id empty_store /\
  none_visible store_asked_to_publish /\
  search_encryptions store_asked_to_publish
  = (Ok (body_status "No visible results" 403), store_asked_to_publish).
Proof.
  assert (H1 : none_visible empty_store) by constructor.
  assert (H2 : keyed_by_id empty_store) by constructor.
  split; [exact H1|]. split; [exact H2|].
  apply (results_never_become_visible int_of_decimal time_of_stamp
           empty_store store_asked_to_publish H1 H2).
  unfold store_asked_to_publish.
  apply reachable_serve, reachable_serve, reachable_serve, reachable_start.
Defined.

Example asked_to_publish_is_closed_and_hidden :
  (fun r => (r !! "id", r !! "ongoing", r !! "results_visibility"))
    <$> elections store_asked_to_publish
  = [(Some (VInt 1), Some (VBool false), Some (VBool false))].
Proof. vm_compute. reflexivity. Qed.

(** ** Which election is the last *)

(** X17: when election ids are distinct integers that grow with
    [created_at], [end_election] closes exactly the election that
    [retrieve_last_election] returns, and leaves the other rows as they
    were. *)
Theorem end_election_closes_latest s :
  elections s <> [] ->
  numbered "id" (elections s) ->
  numbered "created_at" (elections s) ->
  NoDup (ids (elections s)) ->
  ids_follow_creation (elections s) ->
  exists e,
    retrieve_last_election s = (Ok (ODict e), s) /\
    e ∈ elections s /\
    elections (snd (end_election s))
    = (fun r => if decide (r = e) then <["ongoing" := VBool false]> r else r)
        <$> elections s.
Proof.
  intros Hne Hid Hct Hnd Hmono.
  destruct (order_desc_greatest "created_at" (elections s) Hne Hct)
    as (ec & t & tc & Hs & Hec & Htc & Hmaxc).
  destruct (end_election_run s Hne Hid) as (n & (ei & Hei & Hn) & Hmax & Hrun).
  destruct (numbered_elem _ _ _ Hid Hec) as [m Hm].
  destruct (numbered_elem _ _ _ Hct Hei) as [c Hc].
  assert (m = n) as ->.
  { assert (m <= n)%Z by eauto.
    assert (c <= tc)%Z by eauto.
    unfold ids_follow_creation in Hmono. rewrite Forall_forall in Hmono.
    specialize (Hmono ei Hei). rewrite Forall_forall in Hmono.
    specialize (Hmono ec Hec). unfold rank in Hmono.
    rewrite Hn, Hm, Hc, Htc in Hmono. simpl in Hmono.
    assert (Z.leb c tc = true) as Hle by (by apply Z.leb_le).
    rewrite Hle in Hmono. apply Z.leb_le in Hmono. lia. }
  exists ec. split; [|split; [exact Hec|]].
  - unfold retrieve_last_election, bind, select. cbn [data rows_of].
    by rewrite project_star, Hs.
  - rewrite Hrun. cbn [snd]. simpl.
    rewrite (patch_unique _ ec) by done.
    apply list_fmap_ext. intros i r _. case_decide; [|done].
    by rewrite <- insert_union_singleton_l.
Qed.

Lemma end_election_closes_latest_witness :
  elections store_two <> [] /\
  numbered "id" (elections store_two) /\
  numbered "created_at" (elections store_two) /\
  NoDup (ids (elections store_two)) /\
  ids_follow_creation (elections store_two) /\
  exists e,
    retrieve_last_election store_two = (Ok (ODict e), store_two) /\
    e ∈ elections store_two /\
    elections (snd (end_election store_two))
    = (fun r => if decide (r = e) then <["ongoing" := VBool false]> r else r)
        <$> elections store_two.
Proof.
  assert (H1 : elections store_two <> []).
  { apply (bool_decide_unpack _). vm_compute. reflexivity. }
  assert (H2 : numbered "id" (elections store_two)).
  { unfold numbered. apply (bool_decide_unpack _). vm_compute. reflexivity. }
  assert (H3 : numbered "created_at" (elections store_two)).
  { unfold numbered. apply (bool_decide_unpack _). vm_compute. reflexivity. }
  assert (H4 : NoDup (ids (elections store_two))).
  { apply (bool_decide_unpack _). vm_compute. reflexivity. }
  assert (H5 : ids_follow_creation (elections store_two)).
  { unfold ids_follow_creation. apply (bool_decide_unpack _).
    vm_compute. reflexivity. }
  repeat (split; [assumption|]).
  exact (end_election_closes_latest store_two H1 H2 H3 H4 H5).
Defined.

(** ** Which election the search shows *)

(** X18: once some election has its results visible, election rows
    stored after the existing ones, visible or not, never change what
    [search_encryptions] answers: it keeps to the first visible election in
    storage order. *)
Theorem search_encryptions_ignores_later_elections s more :
  Exists (fun r => r !! "results_visibility" = Some (VBool true)) (elections s) ->
  fst (search_encryptions (set_rows Elections (elections s ++ more) s))
  = fst (search_encryptions s).
Proof.
  intros Hvis.
  pose proof (search_encryptions_first_visible s) as H1.
  set (s2 := set_rows Elections (elections s ++ more) s).
  pose proof (search_encryptions_first_visible s2) as H2.
  change (elections s2) with (elections s ++ more)%list in H2.
  change (votes s2) with (votes s) in H2.
  clearbody s2.
  unfold eq_ in H2 at 1. rewrite filter_app in H2.
  fold (eq_ "results_visibility" (VBool true) (elections s)) in H2.
  destruct (eq_ "results_visibility" (VBool true) (elections s))
    as [|e t] eqn:E.
  - apply Exists_exists in Hvis as (r & Hr & Hv).
    pose proof (proj1 (eq_nil_iff _ _ _) E r Hr). contradiction.
  - simpl in H2. destruct (e !! "id"); by rewrite H1, H2.
Qed.

Lemma search_encryptions_ignores_later_elections_witness :
  Exists (fun r => r !! "results_visibility" = Some (VBool true))
    (elections store_published) /\
  fst (search_encryptions
         (set_rows Elections
            (elections store_published
               ++ [ {[ "id" := VInt 5; "ongoing" := VBool false;
                       "results_visibility" := VBool true;
                       "created_at" := VInt 9 ]} ])
            store_published))
  = fst (search_encryptions store_published).
Proof.
  assert (H : Exists (fun r => r !! "results_visibility" = Some (VBool true))
                (elections store_published)).
  { apply (bool_decide_unpack _). vm_compute. reflexivity. }
  split; [exact H|].
  exact (search_encryptions_ignores_later_elections store_published _ H).
Defined.

(** ** [update_result_visibility] never answers "success" *)

(** X19: whenever [update_result_visibility] returns an answer, the
    store is as it was and the answer's status is error or skipped: it
    never answers success, because after the update is sent the call reads
    [status_code] off the response, which raises. *)
Theorem update_result_visibility_never_answers_success election_id status s d s' :
  update_result_visibility election_id status s = (Ok d, s') ->
  s' = s /\
  (d !! "status" = Some (VStr "error") \/ d !! "status" = Some (VStr "skipped")).
Proof.
  unfold update_result_visibility, retrieve_election_data, bind, select, ret.
  cbn [data rows_of fst snd].
  destruct (list_truthy _);
    [|intros [= <- <-]; split; [done | by left]].
  destruct (head _) as [r|];
    [|intros [= <- <-]; split; [done | by left]].
  destruct (dict_truthy r); cbn [negb];
    [|intros [= <- <-]; split; [done | by left]].
  unfold lift, getitem.
  destruct (r !! "ongoing") as [v|]; [|discriminate].
  destruct (truthy v); cbn [negb].
  - intros [= <- <-]. split; [done | by right].
  - unfold update, getattr_status_code. discriminate.
Qed.

Lemma update_result_visibility_never_answers_success_witness :
  update_result_visibility 1 true store_closed
  = (Ok (status_dict "error" "Election ID 1 not found"), store_closed) /\
  store_closed = store_closed /\
  (status_dict "error" "Election ID 1 not found" !! "status"
   = Some (VStr "error") \/
   status_dict "error" "Election ID 1 not found" !! "status"
   = Some (VStr "skipped")).
Proof.
  assert (H : update_result_visibility 1 true store_closed
              = (Ok (status_dict "error" "Election ID 1 not found"),
                 store_closed)) by (vm_compute; reflexivity).
  split; [exact H|].
  exact (update_result_visibility_never_answers_success 1 true store_closed
           _ store_closed H).
Defined.

(** ** A new election is the last one *)

Lemma latest_after_append s1 (l : list row) (e : row) now :
  stamped_before now l ->
  e !! "created_at" = Some (VInt now) ->
  elections s1 = (l ++ [e])%list ->
  retrieve_last_election s1 = (Ok (ODict e), s1).
Proof.
  intros Hl He E.
  assert (Hnum : numbered "created_at" (elections s1)).
  { rewrite E. unfold numbered. apply Forall_app. split.
    - eapply Forall_impl; [exact Hl|]. intros r Hr. simpl in Hr.
      by destruct (rank "created_at" r).
    - apply Forall_singleton. unfold rank. by rewrite He. }
  assert (Hne : elections s1 <> []).
  { rewrite E. by destruct l. }
  destruct (order_desc_greatest "created_at" (elections s1) Hne Hnum)
    as (e' & t & n & Hs & He' & Hn & Hmax).
  assert (e' = e) as ->.
  { rewrite E in He'. apply elem_of_app in He' as [Hin|Hin].
    - exfalso. unfold stamped_before in Hl. rewrite Forall_forall in Hl.
      specialize (Hl e' Hin). unfold rank in Hl. rewrite Hn in Hl.
      assert (now <= n)%Z; [|lia].
      apply (Hmax e); [|exact He]. rewrite E. apply elem_of_app. right.
      by left.
    - by apply list_elem_of_singleton in Hin. }
  unfold retrieve_last_election, bind, select. cbn [data rows_of].
  by rewrite project_star, Hs.
Qed.

(** X20: when every stored election was stamped before the store's
    clock, the row [store_election_data] inserts is the one
    [retrieve_last_election] returns right after, with the id and the
    [ongoing] flag that were passed. *)
Theorem stored_election_is_last
    election_id num_candidates start_time end_time status results_visibility
    encrypted_sum encrypted_randomness decrypted_tally s :
  stamped_before (clock s) (elections s) ->
  exists (e : row) s',
    store_election_data election_id num_candidates start_time end_time status
      results_visibility encrypted_sum encrypted_randomness decrypted_tally s
    = (Ok {| data := [e]; status_code := 201 |}, s') /\
    retrieve_last_election s' = (Ok (ODict e), s') /\
    e !! "id" = Some (VInt election_id) /\
    e !! "ongoing" = Some (VBool status) /\
    e !! "results_visibility" = Some (VBool results_visibility).
Proof.
  intros Hl.
  eexists _, _. split; [reflexivity|].
  split; [|repeat split; reflexivity].
  eapply (latest_after_append _ (elections s) _ (clock s) Hl);
    reflexivity.
Qed.

Lemma stored_election_is_last_witness :
  stamped_before (clock store_closed) (elections store_closed) /\
  exists (e : row) s',
    store_election_data 2 1 {| hour := 9; minute := 0 |}
      {| hour := 17; minute := 0 |} true false None None None store_closed
    = (Ok {| data := [e]; status_code := 201 |}, s') /\
    retrieve_last_election s' = (Ok (ODict e), s') /\
    e !! "id" = Some (VInt 2) /\
    e !! "ongoing" = Some (VBool true) /\
    e !! "results_visibility" = Some (VBool false).
Proof.
  assert (H : stamped_before (clock store_closed) (elections store_closed)).
  { apply (bool_decide_unpack _). vm_compute. reflexivity. }
  split; [exact H|].
  exact (stored_election_is_last 2 1 _ _ true false None None None
           store_closed H).
Defined.

(** X21: when every stored election was stamped before the store's
    clock and [start_election] answers with its page, the election
    [retrieve_last_election] returns right after is the one just started:
    it has the form's id and is ongoing. *)
Theorem started_election_is_last int strptime_time f s h s' :
  start_election int strptime_time f s = (Ok h, s') ->
  stamped_before (clock s) (elections s) ->
  exists (election_id : Z) (e : row),
    f !! "election_id" ≫= int = Some election_id /\
    retrieve_last_election s' = (Ok (ODict e), s') /\
    last (elections s') = Some e /\
    e !! "id" = Some (VInt election_id) /\
    e !! "ongoing" = Some (VBool true).
Proof.
  intros Hrun Hl.
  destruct (start_election_parsed _ _ _ _ _ _ Hrun)
    as (eid & nc & t1 & t2 & H1 & H2 & H3 & H4).
  destruct (start_election_run int strptime_time f s _ _ _ _ H1 H2 H3 H4)
    as (e & Hid & _ & Ho & _ & Hc & Hrun').
  rewrite Hrun in Hrun'. clear Hrun.
  destruct (list_truthy (expected_candidates f eid nc)); [|discriminate].
  injection Hrun' as _ ->.
  exists eid, e. split; [exact H1|]. split; [|split; [|by split]].
  - by apply (latest_after_append _ (elections s) e (clock s)).
  - simpl. apply last_snoc.
Qed.

Lemma started_election_is_last_witness :
  start_election int_of_decimal time_of_stamp (form_AB "2") store_closed
  = (Ok (render_template "admin_dashboard.html"
           [("elections", OList (elections store_two));
            ("last_election", last_or_None (elections store_two))]),
     store_two) /\
  stamped_before (clock store_closed) (elections store_closed) /\
  exists (election_id : Z) (e : row),
    form_AB "2" !! "election_id" ≫= int_of_decimal = Some election_id /\
    retrieve_last_election store_two = (Ok (ODict e), store_two) /\
    last (elections store_two) = Some e /\
    e !! "id" = Some (VInt election_id) /\
    e !! "ongoing" = Some (VBool true).
Proof.
  assert (H0 : start_election int_of_decimal time_of_stamp (form_AB "2")
                 store_closed
    = (Ok (render_template "admin_dashboard.html"
             [("elections", OList (elections store_two));
              ("last_election", last_or_None (elections store_two))]),
       store_two)) by (vm_compute; reflexivity).
  assert (H1 : stamped_before (clock store_closed) (elections store_closed)).
  { apply (bool_decide_unpack _). vm_compute. reflexivity. }
  split; [exact H0|]. split; [exact H1|].
  exact (started_election_is_last int_of_decimal time_of_stamp (form_AB "2")
           store_closed _ store_two H0 H1).
Defined.

(** ** Closing, then setting up the next election *)

Lemma existsb_is_ongoing_false (l : list row) :
  Forall (fun r => is_ongoing r = false) l -> existsb is_ongoing l = false.
Proof. induction 1 as [|r l Hr _ IH]; [done|]. simpl. by rewrite Hr, IH. Qed.

(** X22: when ids are integers, every row has the [ongoing] column and
    only an election with the greatest id is ongoing, then after
    [end_election] no election is ongoing and [election_setup] shows the
    setup form. *)
Theorem election_setup_after_end_election s :
  numbered "id" (elections s) ->
  Forall (fun r => is_Some (r !! "ongoing")) (elections s) ->
  only_latest_ongoing (elections s) ->
  ongoing_count (snd (end_election s)) = 0%nat /\
  election_setup (snd (end_election s))
  = (Ok (render_template "election_setup.html" []), snd (end_election s)).
Proof.
  intros Hid Hcol Hlatest.
  assert (Hafter :
    Forall (fun r => is_ongoing r = false /\ is_Some (r !! "ongoing"))
      (elections (snd (end_election s)))).
  { destruct (elections s) as [|r0 l0] eqn:El.
    { unfold end_election, bind, select. cbn [data rows_of].
      rewrite El. simpl. rewrite El. constructor. }
    assert (Hne : elections s <> []) by (by rewrite El).
    rewrite <- El in Hid, Hcol, Hlatest. clear r0 l0 El.
    destruct (end_election_run s Hne Hid) as (n & (ei & Hei & Hn) & Hmax & ->).
    cbn [snd]. simpl. apply Forall_fmap, Forall_forall. intros r Hr.
    unfold compose, patch_row, hit.
    case_bool_decide as Hhit.
    - rewrite <- insert_union_singleton_l. unfold is_ongoing.
      rewrite lookup_insert_eq. split; [done | by eexists].
    - rewrite Forall_forall in Hcol. split; [|by apply Hcol].
      destruct (is_ongoing r) eqn:Ho; [exfalso|done].
      unfold only_latest_ongoing in Hlatest. rewrite Forall_forall in Hlatest.
      pose proof (Hlatest r Hr Ho) as Hall. rewrite Forall_forall in Hall.
      specialize (Hall ei Hei).
      destruct (numbered_elem _ _ _ Hid Hr) as [m Hm].
      unfold rank in Hall. rewrite Hn, Hm in Hall. simpl in Hall.
      apply Z.leb_le in Hall.
      assert (m <= n)%Z by eauto.
      apply Hhit. rewrite Hm. do 2 f_equal. lia. }
  set (s1 := snd (end_election s)) in *. clearbody s1.
  split.
  - unfold ongoing_count.
    induction Hafter as [|r l [Hr _] _ IH]; [reflexivity|].
    rewrite filter_cons_False; [exact IH | congruence].
  - unfold election_setup, bind, select, lift, ret. cbn [data rows_of].
    rewrite any_ongoing_project.
    + rewrite existsb_is_ongoing_false; [reflexivity|].
      eapply Forall_impl; [exact Hafter|]. by intros r [? _].
    + eapply Forall_impl; [exact Hafter|]. by intros r [_ ?].
Qed.

Lemma election_setup_after_end_election_witness :
  numbered "id" (elections store_two) /\
  Forall (fun r => is_Some (r !! "ongoing")) (elections store_two) /\
  only_latest_ongoing (elections store_two) /\
  ongoing_count (snd (end_election store_two)) = 0%nat /\
  election_setup (snd (end_election store_two))
  = (Ok (render_template "election_setup.html" []),
     snd (end_election store_two)).
Proof.
  assert (H1 : numbered "id" (elections store_two)).
  { unfold numbered. apply (bool_decide_unpack _). vm_compute. reflexivity. }
  assert (H2 : Forall (fun r => is_Some (r !! "ongoing")) (elections store_two)).
  { apply (bool_decide_unpack _). vm_compute. reflexivity. }
  assert (H3 : only_latest_ongoing (elections store_two)).
  { unfold only_latest_ongoing. apply (bool_decide_unpack _).
    vm_compute. reflexivity. }
  repeat (split; [assumption|]).
  exact (election_setup_after_end_election store_two H1 H2 H3).
Defined.
